(** * Sentiment analyzer: the request handler (backend/main.py) and the
    client view (frontend/app.py), embedded as Rocq functions.

    Python strings are sequences of Unicode code points, JSON payloads are
    dynamically typed values, and every operation that can raise is given
    an [outcome].  The model server, the HTTP transport and the process
    launcher are outside the repository: they appear as a [world] whose
    answers the handler consumes. *)

From Stdlib Require Import List NArith ZArith String Ascii Bool Lia.
Import ListNotations.

(* ================================================================== *)
(** * The Python values the two programs manipulate                     *)
(* ================================================================== *)

Module Py.

Open Scope N_scope.

(** A [str] is a list of code points. *)
Definition codepoint := N.
Definition str := list codepoint.

(** An ASCII literal of the source, read as a [str]. *)
Definition lit (s : string) : str := map N_of_ascii (list_ascii_of_string s).

Fixpoint str_eqb (a b : str) : bool :=
  match a, b with
  | [], [] => true
  | x :: a', y :: b' => (x =? y) && str_eqb a' b'
  | _, _ => false
  end.

(** ** Character classes and case mappings *)

(** [str.isspace] on one code point (CPython's [_PyUnicode_IsWhitespace]). *)
Definition isspace (c : codepoint) : bool :=
  ((0x09 <=? c) && (c <=? 0x0D)) || ((0x1C <=? c) && (c <=? 0x20))
  || (c =? 0x85) || (c =? 0xA0) || (c =? 0x1680)
  || ((0x2000 <=? c) && (c <=? 0x200A))
  || (c =? 0x2028) || (c =? 0x2029) || (c =? 0x202F) || (c =? 0x205F)
  || (c =? 0x3000).

Definition is_ascii_upper (c : codepoint) : bool := (0x41 <=? c) && (c <=? 0x5A).
Definition is_ascii_lower (c : codepoint) : bool := (0x61 <=? c) && (c <=? 0x7A).

(** Simple lowercase of one code point, as the regex engine applies it to
    the subject under IGNORECASE.  U+0130 and U+212A are the only code
    points outside ASCII whose simple lowercase is an ASCII letter; every
    other non-ASCII code point has a non-ASCII image, which no comparison
    against the letters of an ASCII pattern can tell from the code point
    itself, so it is left in place. *)
Definition sre_lower (c : codepoint) : codepoint :=
  if is_ascii_upper c then c + 32
  else if c =? 0x130 then 0x69
  else if c =? 0x212A then 0x6B
  else c.

(** The rows of the engine's table of lowercase letters sharing an
    uppercase that concern ASCII letters: i with dotless i, s with long s. *)
Definition sre_fixes (lo : codepoint) : list codepoint :=
  if lo =? 0x69 then [0x131]
  else if lo =? 0x73 then [0x17F]
  else [].

(** Whether an ASCII pattern character has case. *)
Definition sre_iscased (p : codepoint) : bool := is_ascii_upper p || is_ascii_lower p.

(** One literal pattern character [p] against one subject character [c]
    under [re.IGNORECASE]. *)
Definition ci_match (p c : codepoint) : bool :=
  if sre_iscased p then
    let lo := sre_lower p in
    existsb (N.eqb (sre_lower c)) (lo :: sre_fixes lo)
  else c =? p.

(** Full lowercase of one code point ([str.lower] works character by
    character).  Exact on ASCII, on U+0130 (two code points) and on
    U+212A; the other non-ASCII code points have non-ASCII images and are
    left in place: the programs lowercase only a regex match and a string
    searched for an ASCII needle. *)
Definition lower_cp (c : codepoint) : list codepoint :=
  if is_ascii_upper c then [c + 32]
  else if c =? 0x130 then [0x69; 0x307]
  else if c =? 0x212A then [0x6B]
  else [c].

(** Titlecase of one code point, exact on ASCII. *)
Definition title_cp (c : codepoint) : list codepoint :=
  if is_ascii_lower c then [c - 32] else [c].

(** ** String methods *)

Definition lower (s : str) : str := flat_map lower_cp s.

(** [str.capitalize]: first character titlecased, the rest lowercased. *)
Definition capitalize (s : str) : str :=
  match s with
  | [] => []
  | c :: t => title_cp c ++ lower t
  end.

Fixpoint lstrip (s : str) : str :=
  match s with
  | [] => []
  | c :: t => if isspace c then lstrip t else s
  end.

Fixpoint rstrip (s : str) : str :=
  match s with
  | [] => []
  | c :: t =>
      match rstrip t with
      | [] => if isspace c then [] else [c]
      | t' => c :: t'
      end
  end.

(** [str.strip()] with no argument. *)
Definition strip (s : str) : str := rstrip (lstrip s).

Fixpoint startswith (p s : str) : bool :=
  match p, s with
  | [], _ => true
  | a :: p', b :: s' => (a =? b) && startswith p' s'
  | _ :: _, [] => false
  end.

(** [needle in hay] on two strings. *)
Fixpoint contains (needle hay : str) : bool :=
  startswith needle hay
  || match hay with
     | [] => false
     | _ :: t => contains needle t
     end.

(** [s[:n]] for a non-negative [n]. *)
Definition slice_to (n : nat) (s : str) : str := firstn n s.

(** ** Regular expressions: an alternation of literal words *)

(** A literal word matched at the start of the subject; the result is the
    text matched. *)
Fixpoint match_word (pat s : str) : option str :=
  match pat with
  | [] => Some []
  | p :: pat' =>
      match s with
      | [] => None
      | c :: s' =>
          if ci_match p c then
            match match_word pat' s' with
            | Some m => Some (c :: m)
            | None => None
            end
          else None
      end
  end.

(** The alternatives are tried in the order written. *)
Fixpoint match_alt (pats : list str) (s : str) : option str :=
  match pats with
  | [] => None
  | pat :: rest =>
      match match_word pat s with
      | Some m => Some m
      | None => match_alt rest s
      end
  end.

(** [re.search(pats, s, re.IGNORECASE).group(0)]: the leftmost position
    at which an alternative matches; [None] when there is none. *)
Fixpoint re_search (pats : list str) (s : str) : option str :=
  match match_alt pats s with
  | Some m => Some m
  | None =>
      match s with
      | [] => None
      | _ :: t => re_search pats t
      end
  end.

(** ** JSON values, as [response.json()] decodes them *)

#[local] Unset Elimination Schemes.
Inductive json :=
| JNull
| JBool (b : bool)
| JInt (n : Z)
| JFloat (mantissa exponent : Z)
| JStr (s : str)
| JList (l : list json)
| JDict (d : list (str * json)).
#[local] Set Elimination Schemes.

(** A dictionary is its list of items; keys are strings.  A decoded
    dictionary holds no key twice; nothing below relies on it. *)
Definition dict := list (str * json).

Fixpoint dict_lookup (k : str) (d : dict) : option json :=
  match d with
  | [] => None
  | (k', v) :: d' => if str_eqb k k' then Some v else dict_lookup k d'
  end.

(** [s == v] for a string [s] and a decoded value [v]. *)
Definition str_eq_json (s : str) (v : json) : bool :=
  match v with
  | JStr t => str_eqb s t
  | _ => false
  end.

(** ** Exceptions *)

(** The classes of [requests.exceptions] the handlers tell apart. *)
Inductive requests_kind :=
| ConnectionError | ConnectTimeout | ProxyError | SSLError
| ReadTimeout | HTTPError | InvalidJSONError | TooManyRedirects
| OtherRequestException.

(** Exceptions deriving from [Exception].  For those of [requests] the
    text is [str(e)]. *)
Inductive exn :=
| RequestsError (k : requests_kind) (msg : str)
| KeyError (key : str)
| TypeError
| AttributeError
| OSError
| OtherException.

(** [isinstance(e, requests.exceptions.ConnectionError)]. *)
Definition is_ConnectionError (e : exn) : bool :=
  match e with
  | RequestsError (ConnectionError | ConnectTimeout | ProxyError | SSLError) _ => true
  | _ => false
  end.

(** [isinstance(e, requests.exceptions.RequestException)]. *)
Definition is_RequestException (e : exn) : bool :=
  match e with
  | RequestsError _ _ => true
  | _ => false
  end.

(** [isinstance(e, Exception)]. *)
Definition is_Exception (e : exn) : bool := true.

Definition exn_str (e : exn) : str :=
  match e with
  | RequestsError _ msg => msg
  | _ => []
  end.

(** What evaluating an expression gives: a value, or a raised exception. *)
Inductive outcome (A : Type) :=
| Ret (a : A)
| Raise (e : exn).
Arguments Ret {A} a.
Arguments Raise {A} e.

Definition obind {A B} (o : outcome A) (k : A -> outcome B) : outcome B :=
  match o with
  | Ret a => k a
  | Raise e => Raise e
  end.

(** ** Dynamically typed operations on decoded values *)

(** [v.get(k, default)]: only dictionaries have the method. *)
Definition py_get (v : json) (k : str) (default : json) : outcome json :=
  match v with
  | JDict d =>
      match dict_lookup k d with
      | Some x => Ret x
      | None => Ret default
      end
  | _ => Raise AttributeError
  end.

(** [v[k]] for a string key [k]. *)
Definition py_getitem (v : json) (k : str) : outcome json :=
  match v with
  | JDict d =>
      match dict_lookup k d with
      | Some x => Ret x
      | None => Raise (KeyError k)
      end
  | _ => Raise TypeError
  end.

(** [k in v] for a string [k]. *)
Definition py_in (k : str) (v : json) : outcome bool :=
  match v with
  | JDict d =>
      match dict_lookup k d with
      | Some _ => Ret true
      | None => Ret false
      end
  | JList l => Ret (existsb (str_eq_json k) l)
  | JStr s => Ret (contains k s)
  | _ => Raise TypeError
  end.

(** The elements a [for] clause draws from [v]. *)
Definition py_iter (v : json) : outcome (list json) :=
  match v with
  | JList l => Ret l
  | JDict d => Ret (map (fun kv => JStr (fst kv)) d)
  | JStr s => Ret (map (fun c => JStr [c]) s)
  | _ => Raise TypeError
  end.

(** [v.strip()]: only strings have the method. *)
Definition py_strip (v : json) : outcome str :=
  match v with
  | JStr s => Ret (strip s)
  | _ => Raise AttributeError
  end.

(** A list comprehension whose element expression can raise. *)
Fixpoint comprehension {A B} (f : A -> outcome B) (l : list A) : outcome (list B) :=
  match l with
  | [] => Ret []
  | x :: l' =>
      obind (f x) (fun y => obind (comprehension f l') (fun ys => Ret (y :: ys)))
  end.

(** ** The [requests] response object, as far as the programs observe it *)

(** [raise_for_status] raises [HTTPError] exactly for [400 <= status_code
    < 600]; the record does not tie the fields together, so what is proved
    for every record holds for every response the library can build. *)
Record response := {
  status_code : Z;
  raise_for_status : outcome unit;
  json_body : outcome json
}.

Declare Scope outcome_scope.
Delimit Scope outcome_scope with outcome.
Notation "x <~ o ;; k" := (obind o (fun x => k))
  (at level 61, o at next level, right associativity) : outcome_scope.

End Py.

(* ================================================================== *)
(** * backend/main.py                                                  *)
(* ================================================================== *)

Module Backend.
Import Py.
Open Scope N_scope.

(** ** The outside world and the state of the process *)

(** The calls that leave the process. *)
Inductive call :=
| HttpGet (url : str) (timeout : Z)
| HttpPost (url : str) (payload : json) (timeout : Z)
| Popen (argv : list str).

(** What the outside answers to each of them. *)
Record world := {
  http_get : str -> Z -> outcome response;
  http_post : str -> json -> Z -> outcome response;
  popen : list str -> outcome unit
}.

(** [MODEL_NAME] is the module's global; [calls] records, in order, the
    calls made so far. *)
Record state := {
  MODEL_NAME : str;
  calls : list call
}.

(** Line 12. *)
Definition initial : state := {| MODEL_NAME := lit "phi"; calls := [] |}.

(** Statements run in a state and end with a value or a raised exception;
    the state survives a raise. *)
Definition M (A : Type) : Type := state -> outcome A * state.

Definition ret {A} (a : A) : M A := fun s => (Ret a, s).

Definition bind {A B} (m : M A) (k : A -> M B) : M B :=
  fun s =>
    match m s with
    | (Ret a, s') => k a s'
    | (Raise e, s') => (Raise e, s')
    end.

Definition lift {A} (o : outcome A) : M A := fun s => (o, s).

Declare Scope stmt_scope.
Delimit Scope stmt_scope with stmt.
Notation "x <- m ;; k" := (bind m (fun x => k))
  (at level 61, m at next level, right associativity) : stmt_scope.
Open Scope stmt_scope.

(** [try: body except C1: h1 except C2: h2 ...]: the first clause whose
    class test accepts the exception handles it. *)
Fixpoint dispatch {A} (clauses : list ((exn -> bool) * (exn -> M A))) (e : exn) : M A :=
  match clauses with
  | [] => fun s => (Raise e, s)
  | (accepts, handler) :: rest => if accepts e then handler e else dispatch rest e
  end.

Definition try_except {A} (body : M A) (clauses : list ((exn -> bool) * (exn -> M A))) : M A :=
  fun s =>
    match body s with
    | (Ret a, s') => (Ret a, s')
    | (Raise e, s') => dispatch clauses e s'
    end.

Definition read_MODEL_NAME : M str := fun s => (Ret (MODEL_NAME s), s).

Definition assign_MODEL_NAME (m : str) : M unit :=
  fun s => (Ret tt, {| MODEL_NAME := m; calls := calls s |}).

Definition record (c : call) (s : state) : state :=
  {| MODEL_NAME := MODEL_NAME s; calls := calls s ++ [c] |}.

Definition requests_get (w : world) (url : str) (timeout : Z) : M response :=
  fun s => (http_get w url timeout, record (HttpGet url timeout) s).

Definition requests_post (w : world) (url : str) (payload : json) (timeout : Z) : M response :=
  fun s => (http_post w url payload timeout, record (HttpPost url payload timeout) s).

Definition subprocess_Popen (w : world) (argv : list str) : M unit :=
  fun s => (popen w argv, record (Popen argv) s).

(** ** The endpoints *)

Definition tags_url : str := lit "http://localhost:11434/api/tags".
Definition generate_url : str := lit "http://localhost:11434/api/generate".

Definition sentiment_dict (s : str) : json := JDict [(lit "sentiment", JStr s)].

(** Lines 25-28. *)
Definition health_check : M json :=
  model <- read_MODEL_NAME ;;
  ret (JDict [(lit "status", JStr (lit "ok")); (lit "model", JStr model)]).

(** Line 48: the models tried, in order. *)
Definition candidates : list str :=
  [lit "phi"; lit "tinyllama"; lit "gemma:2b"; lit "llama2"].

(** Lines 48-52: the [for] loop, left at the first hit. *)
Fixpoint select_first (options : list str) (available_models : list json) : M unit :=
  match options with
  | [] => ret tt
  | model_option :: rest =>
      if existsb (str_eq_json model_option) available_models
      then assign_MODEL_NAME model_option
      else select_first rest available_models
  end.

(** Lines 43-44: the names the tags payload lists. *)
Definition available_names (body : json) : outcome (list json) :=
  (models <~ py_get body (lit "models") (JList []) ;;
   items <~ py_iter models ;;
   comprehension (fun m => py_getitem m (lit "name")) items)%outcome.

(** Lines 40-52: the body of the first [try]. *)
Definition probe (w : world) : M unit :=
  check_response <- requests_get w tags_url 3 ;;
  if (status_code check_response =? 200)%Z then
    body <- lift (json_body check_response) ;;
    available_models <- lift (available_names body) ;;
    select_first candidates available_models
  else ret tt.

(** Lines 58-60. *)
Definition prompt_of (text : str) : str :=
  lit "Analyze the sentiment of the following text and respond with EXACTLY ONE WORD (Positive, Negative, or Neutral)."
  ++ [0x0A] ++ lit "Text: " ++ text ++ [0x0A] ++ lit "Sentiment:".

(** Line 67. *)
Definition generate_payload (model prompt : str) : json :=
  JDict [(lit "model", JStr model); (lit "prompt", JStr prompt); (lit "stream", JBool false)].

(** Line 80: the alternatives of the pattern. *)
Definition keywords : list str := [lit "Positive"; lit "Negative"; lit "Neutral"].

(** Lines 78-90: the label drawn from the decoded reply. *)
Definition extract_sentiment (result : json) : outcome json :=
  (present <~ py_in (lit "response") result ;;
   if (present : bool) then
     reply <~ py_getitem result (lit "response") ;;
     raw_sentiment <~ py_strip reply ;;
     match re_search keywords raw_sentiment with
     | Some sentiment_match => Ret (sentiment_dict (capitalize sentiment_match))
     | None => Ret (sentiment_dict (slice_to 50 raw_sentiment))
     end
   else Ret (sentiment_dict (lit "Error: Unable to analyze sentiment")))%outcome.

(** Lines 97-106: the handler of [RequestException]. *)
Definition on_request_exception (w : world) (e : exn) : M json :=
  if contains (lit "model not found") (lower (exn_str e)) then
    try_except
      (model <- read_MODEL_NAME ;;
       _ <- subprocess_Popen w [lit "ollama"; lit "pull"; model] ;;
       ret (sentiment_dict
              (lit "Model " ++ model
               ++ lit " not found. Attempting to download it now. Please try again in a minute.")))
      [(fun _ => true,
        fun _ =>
          model <- read_MODEL_NAME ;;
          ret (sentiment_dict
                 (lit "Error: Model not found. Run 'ollama pull " ++ model
                  ++ lit "' in a terminal")))]
  else ret (sentiment_dict (lit "Error connecting to Ollama API")).

(** Lines 63-90: the body of the second [try]. *)
Definition generate_body (w : world) (prompt : str) : M json :=
  model <- read_MODEL_NAME ;;
  response <- requests_post w generate_url (generate_payload model prompt) 15 ;;
  _ <- lift (raise_for_status response) ;;
  result <- lift (json_body response) ;;
  lift (extract_sentiment result).

(** Lines 92-109: its three clauses. *)
Definition generate_clauses (w : world) : list ((exn -> bool) * (exn -> M json)) :=
  [(is_ConnectionError,
    fun _ => ret (sentiment_dict
                    (lit "Error: Cannot connect to Ollama. Run 'ollama serve' in a terminal")));
   (is_RequestException, on_request_exception w);
   (is_Exception, fun _ => ret (sentiment_dict (lit "Unexpected error occurred")))].

(** Lines 62-109. *)
Definition generate (w : world) (prompt : str) : M json :=
  try_except (generate_body w prompt) (generate_clauses w).

(** Lines 31-109.  The first [try] either falls through ([None]) or its
    clause returns from the function. *)
Definition analyze_sentiment (w : world) (text : str) : M json :=
  match strip text with
  | [] => ret (sentiment_dict (lit "Please provide some text to analyze"))
  | _ :: _ =>
      returned <- try_except
                    (_ <- probe w ;; ret None)
                    [(is_Exception,
                      fun _ => ret (Some (sentiment_dict
                                 (lit "Error: Ollama is not running. Start with 'ollama serve'"))))] ;;
      match returned with
      | Some d => ret d
      | None => generate w (prompt_of text)
      end
  end.

(** ** What the web framework makes of a handler *)

(** The status of an answer and, when the answer carries what the
    handler returned, its JSON body.  The bodies the framework writes in
    the handler's place (for a 422 or a 500) are left out. *)
Record http_reply := {
  reply_status : Z;
  reply_json : option json
}.

(** The code points UTF-8 can carry: all but the surrogates. *)
Definition utf8_encodable (c : codepoint) : bool :=
  (c <? 0xD800) || ((0xDFFF <? c) && (c <? 0x110000)).

Definition str_encodable (s : str) : bool := forallb utf8_encodable s.

(** Whether the framework can render the value as JSON text and encode
    it as UTF-8: every string in it, keys included, must be encodable. *)
Fixpoint encodable (v : json) : bool :=
  match v with
  | JStr s => str_encodable s
  | JList l => forallb encodable l
  | JDict d => forallb (fun kv => str_encodable (fst kv) && encodable (snd kv)) d
  | _ => true
  end.

(** A returned dictionary is rendered and sent as a 200 with that JSON
    body.  When the rendering raises, because a string holds a surrogate,
    or when an exception leaves the handler, the answer is a 500.  The
    state is the one the handler left. *)
Definition serve (handler : M json) (s : state) : http_reply * state :=
  match handler s with
  | (Ret d, s') =>
      if encodable d
      then ({| reply_status := 200; reply_json := Some d |}, s')
      else ({| reply_status := 500; reply_json := None |}, s')
  | (Raise _, s') => ({| reply_status := 500; reply_json := None |}, s')
  end.

(** The requests a client can send. *)
Inductive request :=
| GET_root
| POST_analyze (text : str).

(** Line 31 declares [text] as [Form(...)]: the field is required and
    the framework takes an empty value for a missing one, answering 422
    without entering the function. *)
Definition handle (w : world) (r : request) : state -> http_reply * state :=
  match r with
  | GET_root => serve health_check
  | POST_analyze text =>
      match text with
      | [] => fun s => ({| reply_status := 422; reply_json := None |}, s)
      | _ :: _ => serve (analyze_sentiment w text)
      end
  end.

(** The states the process can be in: each request is served in the
    state the previous one left, against whatever the outside answers. *)
Inductive reachable : state -> Prop :=
| reach_start : reachable initial
| reach_step s w r : reachable s -> reachable (snd (handle w r s)).

End Backend.

(* ================================================================== *)
(** * frontend/app.py                                                  *)
(* ================================================================== *)

Module Frontend.
Import Py.
Open Scope N_scope.

(** Line 5. *)
Definition MODEL_NAME : str := lit "tinyllama".

(** The text handed to a status box: literal text, the fields of an
    f-string (kept as the values they hold), or the text of an exception. *)
Inductive piece :=
| Text (s : str)
| Field (v : json)
| ExnText (e : exn).

(** The four status boxes. *)
Inductive element :=
| st_success (body : list piece)
| st_error (body : list piece)
| st_info (body : list piece)
| st_warning (body : list piece).

Inductive styling := Success | Error | Informational | Warning.

Definition styling_of (el : element) : styling :=
  match el with
  | st_success _ => Success
  | st_error _ => Error
  | st_info _ => Informational
  | st_warning _ => Warning
  end.

(** Lines 58-67. *)
Definition show_sentiment (sentiment : json) : outcome element :=
  if str_eq_json (lit "Positive") sentiment then
    Ret (st_success [Text (lit "Sentiment: "); Field sentiment; Text (lit " " ++ [0x1F600])])
  else if str_eq_json (lit "Negative") sentiment then
    Ret (st_error [Text (lit "Sentiment: "); Field sentiment; Text (lit " " ++ [0x1F61E])])
  else if str_eq_json (lit "Neutral") sentiment then
    Ret (st_info [Text (lit "Sentiment: "); Field sentiment; Text (lit " " ++ [0x1F610])])
  else
    (has_error <~ py_in (lit "Error") sentiment ;;
     if (has_error : bool) then Ret (st_error [Field sentiment])
     else Ret (st_warning [Text (lit "Sentiment: "); Field sentiment]))%outcome.

(** Lines 54-69. *)
Definition show_response (res : response) : outcome element :=
  if (status_code res =? 200)%Z then
    (body <~ json_body res ;;
     sentiment <~ py_get body (lit "sentiment") (JStr (lit "Error")) ;;
     show_sentiment sentiment)%outcome
  else
    Ret (st_error [Text (lit "Error: Received status code "); Field (JInt (status_code res))]).

Definition analyze_url : str := lit "http://localhost:8000/analyze/".

(** Lines 45-74: what a press of the button displays.  [post] is the
    answer of [requests.post] to the form sent. *)
Definition analyze_button (post : str -> dict -> Z -> outcome response) (text_input : str) : element :=
  match strip text_input with
  | [] => st_error [Text (lit "Please enter some text to analyze")]
  | _ :: _ =>
      match (res <~ post analyze_url [(lit "text", JStr text_input)] 30%Z ;;
             show_response res)%outcome with
      | Ret el => el
      | Raise e =>
          if is_ConnectionError e
          then st_error [Text (lit "Failed to connect to the backend server. Is it running?")]
          else st_error [Text (lit "An error occurred: "); ExnText e]
      end
  end.

(** ** The rest of the page *)

Definition backend_url : str := lit "http://localhost:8000/".
Definition ollama_tags_url : str := lit "http://localhost:11434/api/tags".

(** Lines 12-21: the indicator drawn when the page loads.  [get] is the
    answer of [requests.get]; [a + str(n)] is kept as its two pieces. *)
Definition backend_status (get : str -> outcome response) : element :=
  match get backend_url with
  | Ret response =>
      if (status_code response =? 200)%Z
      then st_success [Text ([0x2705] ++ lit " Backend server is online")]
      else st_warning
             [Text ([0x26A0; 0xFE0F] ++ lit " Backend server responded with status code: ");
              Field (JInt (status_code response))]
  | Raise _ =>
      st_error
        [Text ([0x274C]
               ++ lit " Backend server is offline. Run 'uvicorn main:app --reload' in the backend folder")]
  end.

(** Lines 26-30. *)
Definition examples : list str :=
  [lit "I love this product! It's amazing and exceeded all my expectations.";
   lit "This is the worst experience I've ever had. Terrible customer service.";
   lit "The weather today is neither good nor bad, just average."].

(** Lines 34-42: the text analysed, from the choice of the select box and
    the content of the text area. *)
Definition text_input_of (example_choice text_area : str) : str :=
  match example_choice with
  | [] => text_area
  | _ :: _ =>
      if str_eqb example_choice (lit "Positive example") then nth 0 examples []
      else if str_eqb example_choice (lit "Negative example") then nth 1 examples []
      else nth 2 examples []
  end.

(** Lines 84-89: the button "Check Backend". *)
Definition check_backend (get : str -> outcome response) : element :=
  match get backend_url with
  | Ret _ => st_success [Text ([0x2705] ++ lit " Backend is running")]
  | Raise _ => st_error [Text ([0x274C] ++ lit " Backend is not running")]
  end.

(** Line 101: [any(m["name"] == MODEL_NAME for m in models)], which stops
    at the first entry that compares equal. *)
Fixpoint any_named (items : list json) : outcome bool :=
  match items with
  | [] => Ret false
  | m :: rest =>
      (name <~ py_getitem m (lit "name") ;;
       if str_eq_json MODEL_NAME name then Ret true else any_named rest)%outcome
  end.

(** Lines 99-106: the inner [try] with its bare [except]. *)
Definition model_availability (resp : response) : element :=
  match (body <~ json_body resp ;;
         models <~ py_get body (lit "models") (JList []) ;;
         items <~ py_iter models ;;
         any_named items)%outcome with
  | Ret true =>
      st_success [Text ([0x2705] ++ lit " " ++ MODEL_NAME ++ lit " model is available")]
  | Ret false =>
      st_warning [Text ([0x26A0; 0xFE0F] ++ lit " " ++ MODEL_NAME
                        ++ lit " model not found. Run 'ollama pull " ++ MODEL_NAME ++ lit "'")]
  | Raise _ =>
      st_warning [Text ([0x26A0; 0xFE0F] ++ lit " Could not check for model availability")]
  end.

(** Lines 93-108: the button "Check Ollama" and the boxes it adds. *)
Definition check_ollama (get : str -> outcome response) : list element :=
  match get ollama_tags_url with
  | Ret resp =>
      [st_success [Text ([0x2705] ++ lit " Ollama is running")]; model_availability resp]
  | Raise _ => [st_error [Text ([0x274C] ++ lit " Ollama is not running")]]
  end.

End Frontend.

(* ================================================================== *)
(** * The two programs together                                        *)
(* ================================================================== *)

Module Wire.
Import Py.

(** The handler's reply as [requests] hands it to the client: the status,
    and the body as it was returned.  The body of an answer the framework
    wrote in the handler's place is not modelled and reading it is taken
    to raise, as it does for the plain text of a 500; the client reads
    the body of a 200 only. *)
Definition received (reply : Backend.http_reply) : response :=
  {| status_code := Backend.reply_status reply;
     raise_for_status :=
       if ((400 <=? Backend.reply_status reply) && (Backend.reply_status reply <? 600))%Z
       then Raise (RequestsError HTTPError [])
       else Ret tt;
     json_body :=
       match Backend.reply_json reply with
       | Some d => Ret d
       | None => Raise (RequestsError InvalidJSONError [])
       end |}.

(** The answer to the form [text] posted to /analyze/ while the handler is
    in state [s] and the outside is [w]. *)
Definition served (w : Backend.world) (s : Backend.state) (text : str) : response :=
  received (fst (Backend.handle w (Backend.POST_analyze text) s)).

End Wire.

(* ================================================================== *)
(** * Vocabulary of the properties                                     *)
(* ================================================================== *)

Module Spec.
Import Py.

(** A string made of whitespace only. *)
Definition blank (s : str) : Prop := Forall (fun c => isspace c = true) s.

(** [m] spells [word], letter by letter, up to the case-insensitive
    comparison of the regex engine. *)
Definition ci_word (word m : str) : Prop :=
  Forall2 (fun p c => ci_match p c = true) word m.

(** ASCII letters folded to lowercase, everything else kept. *)
Definition ascii_fold (c : codepoint) : codepoint :=
  if is_ascii_upper c then (c + 32)%N else c.

(** [word] occurs in [s], in some letter case, from index [i] on. *)
Definition occurs_at (word : str) (i : nat) (s : str) : Prop :=
  exists pre m post, s = pre ++ m ++ post /\ List.length pre = i /\ ci_word word m.

(** [word] occurs somewhere in [s], in some letter case. *)
Definition occurs (word s : str) : Prop := exists i, occurs_at word i s.

(** [needle] is a substring of [s], as written. *)
Definition substring (needle s : str) : Prop :=
  exists pre post, s = pre ++ needle ++ post.

(** The decoded reply of the generation endpoint carrying [reply]. *)
Definition carries (result : json) (reply : str) : Prop :=
  exists d, result = JDict d /\ dict_lookup (lit "response") d = Some (JStr reply).

(** A letter other than i, k and s: as a pattern letter it matches its
    two ASCII forms and nothing else. *)
Definition plain_letter (p : codepoint) : Prop :=
  sre_iscased p = true /\ sre_lower p <> 0x69%N /\ sre_lower p <> 0x6B%N
  /\ sre_lower p <> 0x73%N.

(** The diagnostic of line 55. *)
Definition not_running : str :=
  lit "Error: Ollama is not running. Start with 'ollama serve'".

(** [name] is among the decoded names [available]. *)
Definition listed (name : str) (available : list json) : Prop :=
  In (JStr name) available.

(** The client's POST of [text_input] is answered by [res]. *)
Definition answered (post : str -> dict -> Z -> outcome response)
    (text_input : str) (res : response) : Prop :=
  post Frontend.analyze_url [(lit "text", JStr text_input)] 30%Z = Ret res.

(** [res] is a 200 whose body is the dictionary [body]. *)
Definition ok_with (res : response) (body : dict) : Prop :=
  status_code res = 200%Z /\ json_body res = Ret (JDict body).

(** A string of ASCII characters. *)
Definition ascii_only (s : str) : Prop := Forall (fun c => (c < 128)%N) s.

(** [needle] occurs in [s] up to the case of ASCII letters. *)
Definition mentions (needle s : str) : Prop :=
  exists pre m post, s = pre ++ m ++ post /\ map ascii_fold m = needle.

(** What the generation attempt of lines 65-87 comes to for the selected
    [model]: the dictionary it returns, or the exception raised on the
    way. *)
Definition generation_attempt (w : Backend.world) (model prompt : str) : outcome json :=
  (response <~ Backend.http_post w Backend.generate_url
                 (Backend.generate_payload model prompt) 15%Z ;;
   _ <~ raise_for_status response ;;
   result <~ json_body response ;;
   Backend.extract_sentiment result)%outcome.

(** The three calls a request can make, for the model [m] and the text. *)
Definition the_probe : Backend.call := Backend.HttpGet Backend.tags_url 3.

Definition the_post (m text : str) : Backend.call :=
  Backend.HttpPost Backend.generate_url
    (Backend.generate_payload m (Backend.prompt_of text)) 15.

Definition the_pull (m : str) : Backend.call :=
  Backend.Popen [lit "ollama"; lit "pull"; m].

(** A needle of ASCII characters other than i and k. *)
Definition simple_needle (needle : str) : Prop :=
  Forall (fun n => (n < 128)%N /\ n <> 0x69%N /\ n <> 0x6B%N) needle.

(** The model a request that gets as far as the probe leaves selected,
    from the model selected before. *)
Definition selection (w : Backend.world) (current : str) : str :=
  match Backend.http_get w Backend.tags_url 3%Z with
  | Ret check_response =>
      if (status_code check_response =? 200)%Z then
        match json_body check_response with
        | Ret body =>
            match Backend.available_names body with
            | Ret available =>
                match find (fun o => existsb (str_eq_json o) available) Backend.candidates with
                | Some o => o
                | None => current
                end
            | Raise _ => current
            end
        | Raise _ => current
        end
      else current
  | Raise _ => current
  end.

(** The model entry [m] is a dictionary holding [v] under "name". *)
Definition named (m v : json) : Prop :=
  exists d, m = JDict d /\ dict_lookup (lit "name") d = Some v.

(** The decoded value [v] is not a string. *)
Definition not_text (v : json) : Prop := forall t, v <> JStr t.

End Spec.

(** Concrete inputs used below. *)
Module Examples.
Import Py Backend.

(** The decoded generation reply whose text is [reply]. *)
Definition as_result (reply : str) : json := JDict [(lit "response", JStr reply)].

Definition reply_both : str := lit "Positive, not neutral".
Definition reply_neutral : str := lit "It is NEUTRAL.".
Definition reply_padded : str := lit " ok".
Definition reply_embedded : str := lit "  Sentiment:neutrality!  ".

(** "POS" followed by U+0130, then "TIVE". *)
Definition reply_dotted : str := lit "POS" ++ [0x130%N] ++ lit "TIVE".

Definition ok_response (body : json) : response :=
  {| status_code := 200; raise_for_status := Ret tt; json_body := Ret body |}.

(** A tags payload listing the given names. *)
Definition tags_body (names : list str) : json :=
  JDict [(lit "models", JList (map (fun n => JDict [(lit "name", JStr n)]) names))].

(** tinyllama and llama2 are loaded; the model answers " negative!". *)
Definition world_tiny : world :=
  {| http_get := fun _ _ => Ret (ok_response (tags_body [lit "tinyllama"; lit "llama2"]));
     http_post := fun _ _ _ => Ret (ok_response (as_result (lit " negative!")));
     popen := fun _ => Ret tt |}.

(** Nothing listens on the port of the model server. *)
Definition world_down : world :=
  {| http_get := fun _ _ => Raise (RequestsError ConnectionError (lit "Connection refused"));
     http_post := fun _ _ _ => Raise (RequestsError ConnectionError (lit "Connection refused"));
     popen := fun _ => Raise OSError |}.

(** The tags endpoint answers 503; generation works. *)
Definition unavailable : response :=
  {| status_code := 503;
     raise_for_status := Raise (RequestsError HTTPError (lit "503 Server Error"));
     json_body := Raise (RequestsError InvalidJSONError []) |}.

Definition world_503 : world :=
  {| http_get := fun _ _ => Ret unavailable;
     http_post := fun _ _ _ => Ret (ok_response (as_result (lit "Positive")));
     popen := fun _ => Ret tt |}.

(** Answers of the request handler, as the client receives them. *)
Definition post_label (label : str) : str -> dict -> Z -> outcome response :=
  fun _ _ _ => Ret (ok_response (sentiment_dict label)).

Definition post_empty_body : str -> dict -> Z -> outcome response :=
  fun _ _ _ => Ret (ok_response (JDict [])).

(** tinyllama is loaded; the reply of the model is one code point, the
    lone surrogate U+D800 (in the JSON text, the escape \ud800). *)
Definition world_surrogate : world :=
  {| http_get := fun _ _ => Ret (ok_response (tags_body [lit "tinyllama"]));
     http_post := fun _ _ _ => Ret (ok_response (as_result [0xD800%N]));
     popen := fun _ => Ret tt |}.

(** A 200 from the tags endpoint whose body does not decode. *)
Definition garbled : response :=
  {| status_code := 200; raise_for_status := Ret tt; json_body := Raise OtherException |}.

Definition world_garbled : world :=
  {| http_get := fun _ _ => Ret garbled;
     http_post := fun _ _ _ => Ret (ok_response (as_result (lit "Positive")));
     popen := fun _ => Ret tt |}.

(** The tags endpoint answers 503 and the generation endpoint answers as
    given. *)
Definition world_post (answer : outcome response) : world :=
  {| http_get := fun _ _ => Ret unavailable;
     http_post := fun _ _ _ => answer;
     popen := fun _ => Ret tt |}.

(** A 404 whose text names the missing model. *)
Definition missing_model : response :=
  {| status_code := 404;
     raise_for_status :=
       Raise (RequestsError HTTPError
                (lit "404 Client Error: Model Not Found for url: http://localhost:11434/api/generate"));
     json_body := Ret (JDict [(lit "error", JStr (lit "model 'phi' not found"))]) |}.

(** The client's POST answered by the handler in its initial state. *)
Definition post_via (w : world) : str -> dict -> Z -> outcome response :=
  fun _ data _ =>
    match dict_lookup (lit "text") data with
    | Some (JStr text) => Ret (Wire.served w initial text)
    | _ => Raise OtherException
    end.

(** Answers to the client's GET requests. *)
Definition get_answer (answer : outcome response) : str -> outcome response :=
  fun _ => answer.

(** A model entry without a name. *)
Definition nameless : json := JDict [(lit "size", JInt 1)].

(** tinyllama first, then an entry without a name. *)
Definition tags_then_nameless : json :=
  JDict [(lit "models", JList [JDict [(lit "name", JStr (lit "tinyllama"))]; nameless])].

(** A 500 from the generation endpoint. *)
Definition server_error : response :=
  {| status_code := 500;
     raise_for_status :=
       Raise (RequestsError HTTPError
                (lit "500 Server Error: Internal Server Error for url: http://localhost:11434/api/generate"));
     json_body := Raise (RequestsError InvalidJSONError []) |}.

Definition refused : exn :=
  RequestsError ConnectionError (lit "Connection refused").

Definition teapot : response :=
  {| status_code := 418; raise_for_status := Raise (RequestsError HTTPError []);
     json_body := Raise (RequestsError InvalidJSONError []) |}.

End Examples.

(* ================================================================== *)
(** * Facts about the string methods                                   *)
(* ================================================================== *)

Import Py Spec.

Lemma str_eqb_eq (a b : str) : str_eqb a b = true <-> a = b.
Proof.
  revert b; induction a as [|x a IH]; intros [|y b]; simpl; split;
    try congruence; try reflexivity.
  - intros H. apply andb_true_iff in H as [Hx Ha].
    apply N.eqb_eq in Hx. apply IH in Ha. congruence.
  - intros H. injection H as -> ->.
    rewrite N.eqb_refl. simpl. now apply IH.
Qed.

Lemma str_eqb_neq (a b : str) : str_eqb a b = false <-> a <> b.
Proof.
  split.
  - intros H E. apply str_eqb_eq in E. congruence.
  - intros H. destruct (str_eqb a b) eqn:E; [|reflexivity].
    apply str_eqb_eq in E. contradiction.
Qed.

(** ** Stripping *)

Lemma lstrip_blank (s : str) : blank s -> lstrip s = [].
Proof.
  induction 1 as [|c s Hc _ IH]; simpl; [reflexivity|].
  now rewrite Hc.
Qed.

Lemma strip_blank (s : str) : blank s -> strip s = [].
Proof. intros H. unfold strip. now rewrite lstrip_blank. Qed.

Lemma rstrip_nil (s : str) : rstrip s = [] -> blank s.
Proof.
  induction s as [|c s IH]; simpl; [constructor|].
  destruct (rstrip s); [|discriminate].
  destruct (isspace c) eqn:Hc; [|discriminate].
  intros _. constructor; [assumption | now apply IH].
Qed.

Lemma lstrip_split (s : str) : exists l, s = l ++ lstrip s /\ blank l.
Proof.
  induction s as [|c s (l & E & B)]; simpl.
  - exists []. split; [reflexivity | constructor].
  - destruct (isspace c) eqn:Hc.
    + exists (c :: l). split; [simpl; congruence | now constructor].
    + exists []. split; [reflexivity | constructor].
Qed.

Lemma rstrip_split (s : str) : exists r, s = rstrip s ++ r /\ blank r.
Proof.
  induction s as [|c s (r & E & B)]; simpl.
  - exists []. split; [reflexivity | constructor].
  - destruct (rstrip s) as [|d t] eqn:Hr.
    + simpl in E. subst r. destruct (isspace c) eqn:Hc.
      * exists (c :: s). split; [reflexivity | now constructor].
      * exists s. split; [reflexivity | assumption].
    + exists r. split; [simpl in E |- *; congruence | assumption].
Qed.

Lemma strip_split (s : str) :
  exists l r, s = l ++ strip s ++ r /\ blank l /\ blank r.
Proof.
  destruct (lstrip_split s) as (l & El & Bl).
  destruct (rstrip_split (lstrip s)) as (r & Er & Br).
  exists l, r. unfold strip. now rewrite <- Er.
Qed.

(** Empty after trimming is the same as made of whitespace only. *)
Lemma strip_nil_iff (s : str) : strip s = [] <-> blank s.
Proof.
  split; [|apply strip_blank].
  intros H. destruct (strip_split s) as (l & r & E & Bl & Br).
  rewrite H in E. simpl in E. rewrite E. apply Forall_app. auto.
Qed.

Lemma lstrip_keep (pre rest : str) (c : codepoint) :
  isspace c = false -> lstrip (pre ++ c :: rest) = lstrip pre ++ c :: rest.
Proof.
  intros Hc. induction pre as [|d pre IH]; simpl.
  - now rewrite Hc.
  - destruct (isspace d); [assumption | reflexivity].
Qed.

Lemma rstrip_keep (pre rest : str) (c : codepoint) :
  isspace c = false -> rstrip (pre ++ c :: rest) = pre ++ c :: rstrip rest.
Proof.
  intros Hc. induction pre as [|d pre IH]; simpl.
  - destruct (rstrip rest); [now rewrite Hc | reflexivity].
  - rewrite IH. destruct pre; reflexivity.
Qed.

(** A word without whitespace survives stripping, with what lies around
    it stripped on the outer side only. *)
Lemma strip_around (pre m post : str) :
  m <> [] -> Forall (fun c => isspace c = false) m ->
  strip (pre ++ m ++ post) = lstrip pre ++ m ++ rstrip post.
Proof.
  intros Hne Hm. unfold strip.
  destruct m as [|c m]; [contradiction|].
  inversion Hm as [|? ? Hc Hm']; subst.
  simpl. rewrite lstrip_keep by assumption.
  clear Hne Hm. revert c Hc. generalize (lstrip pre) as a.
  induction Hm' as [|d m Hd _ IH]; intros a c Hc.
  - simpl. apply rstrip_keep; assumption.
  - specialize (IH (a ++ [c]) d Hd).
    rewrite <- !app_assoc in IH. simpl in IH. exact IH.
Qed.

(** ** Case-insensitive comparison of one character *)

Ltac unfold_classes :=
  unfold ci_match, sre_iscased, sre_fixes, sre_lower, lower_cp, title_cp,
    is_ascii_upper, is_ascii_lower, isspace in *.

Ltac split_tests :=
  repeat match goal with
    | H : context [if ?b then _ else _] |- _ => destruct b eqn:?
    | |- context [if ?b then _ else _] => destruct b eqn:?
    end.

Ltac to_arith :=
  simpl in *;
  repeat match goal with
    | H : _ && _ = true |- _ => apply andb_true_iff in H as [? ?]
    | H : _ || _ = true |- _ => apply orb_true_iff in H as [? | ?]
    | H : _ && _ = false |- _ => apply andb_false_iff in H as [? | ?]
    | H : _ || _ = false |- _ => apply orb_false_iff in H as [? ?]
    | H : (_ =? _)%N = true |- _ => apply N.eqb_eq in H
    | H : (_ =? _)%N = false |- _ => apply N.eqb_neq in H
    | H : (_ <=? _)%N = true |- _ => apply N.leb_le in H
    | H : (_ <=? _)%N = false |- _ => apply N.leb_gt in H
    end.

Lemma ci_match_plain (p c : codepoint) :
  plain_letter p -> ci_match p c = true ->
  c = sre_lower p \/ (c + 32)%N = sre_lower p /\ is_ascii_upper c = true.
Proof.
  intros (Hp & Hi & Hk & Hs) H. unfold ci_match in H. rewrite Hp in H.
  cbv zeta in H. unfold sre_fixes in H.
  apply N.eqb_neq in Hi, Hs. rewrite Hi, Hs in H. apply N.eqb_neq in Hi, Hs.
  simpl in H. rewrite orb_false_r in H. apply N.eqb_eq in H.
  revert H Hi Hk Hs. generalize (sre_lower p) as lo. intros lo.
  unfold sre_lower. destruct (is_ascii_upper c) eqn:Hu.
  - intros <-. right. auto.
  - destruct (c =? 0x130)%N; [congruence|].
    destruct (c =? 0x212A)%N; [congruence|]. auto.
Qed.

Lemma cased_lower_range (p : codepoint) :
  sre_iscased p = true -> (0x61 <= sre_lower p <= 0x7A)%N.
Proof.
  unfold_classes. split_tests; to_arith; intros; to_arith; lia.
Qed.

(** Whatever a cased pattern letter matches is a letter. *)
Lemma ci_match_letter (p c : codepoint) :
  sre_iscased p = true -> ci_match p c = true ->
  (0x41 <= c <= 0x5A \/ 0x61 <= c <= 0x7A \/ c = 0x130 \/ c = 0x131
   \/ c = 0x17F \/ c = 0x212A)%N.
Proof.
  intros Hp H. unfold ci_match in H. rewrite Hp in H. cbv zeta in H.
  pose proof (cased_lower_range p Hp) as Hlo.
  revert H Hlo. generalize (sre_lower p) as lo. intros lo H Hlo.
  simpl in H. apply orb_true_iff in H as [H | H].
  - apply N.eqb_eq in H. revert H. unfold_classes.
    split_tests; to_arith; intros; lia.
  - revert H. unfold_classes. split_tests; simpl; try discriminate;
      rewrite orb_false_r; intros H; to_arith; split_tests; to_arith; lia.
Qed.

Lemma ci_match_not_space (p c : codepoint) :
  sre_iscased p = true -> ci_match p c = true -> isspace c = false.
Proof.
  intros Hp H. pose proof (ci_match_letter p c Hp H) as L.
  destruct (isspace c) eqn:E; [exfalso | reflexivity].
  unfold isspace in E. to_arith; lia.
Qed.

(** ** Matching a word, and searching *)

Lemma match_word_sound (pat : str) :
  forall s m, match_word pat s = Some m -> exists rest, s = m ++ rest /\ ci_word pat m.
Proof.
  induction pat as [|p pat IH]; intros s m H; simpl in H.
  - injection H as <-. exists s. split; [reflexivity | constructor].
  - destruct s as [|c s]; [discriminate|].
    destruct (ci_match p c) eqn:Hc; [|discriminate].
    destruct (match_word pat s) as [m'|] eqn:Hm; [|discriminate].
    injection H as <-. destruct (IH _ _ Hm) as (rest & -> & Hw).
    exists rest. split; [reflexivity | now constructor].
Qed.

Lemma match_word_complete (pat m rest : str) :
  ci_word pat m -> match_word pat (m ++ rest) = Some m.
Proof.
  induction 1 as [|p c pat m Hc _ IH]; simpl; [reflexivity|].
  now rewrite Hc, IH.
Qed.

Lemma match_alt_sound (pats : list str) (s m : str) :
  match_alt pats s = Some m -> exists w, In w pats /\ match_word w s = Some m.
Proof.
  induction pats as [|pat pats IH]; simpl; [discriminate|].
  destruct (match_word pat s) as [m'|] eqn:E.
  - intros H. injection H as <-. exists pat. auto.
  - intros H. destruct (IH H) as (w & Hin & Hw). exists w. auto.
Qed.

Lemma match_alt_none (pats : list str) (s : str) :
  match_alt pats s = None <-> forall w, In w pats -> match_word w s = None.
Proof.
  induction pats as [|pat pats IH]; simpl.
  - split; [intros _ w [] | reflexivity].
  - destruct (match_word pat s) as [m|] eqn:E.
    + split; [discriminate|]. intros H. rewrite (H pat) in E by auto. discriminate.
    + rewrite IH. split.
      * intros H w [<- | Hin]; auto.
      * intros H w Hin. apply H. auto.
Qed.

Lemma skipn_length_app {A} (pre x : list A) : skipn (List.length pre) (pre ++ x) = x.
Proof. induction pre; simpl; auto. Qed.

Lemma occurs_at_skipn (w : str) (i : nat) (s : str) :
  occurs_at w i s <->
  (i <= List.length s)%nat /\ exists m, match_word w (skipn i s) = Some m.
Proof.
  split.
  - intros (pre & m & post & -> & <- & Hw). split.
    + rewrite length_app. lia.
    + exists m. rewrite skipn_length_app. now apply match_word_complete.
  - intros (Hi & m & Hm). apply match_word_sound in Hm as (rest & E & Hw).
    exists (firstn i s), m, rest. split; [|split].
    + rewrite <- E. symmetry. apply firstn_skipn.
    + apply firstn_length_le. assumption.
    + assumption.
Qed.

(** The search answers at the leftmost index where an alternative
    matches, with what matched there. *)
Lemma re_search_some (pats : list str) (s m : str) :
  re_search pats s = Some m ->
  exists i, (i <= List.length s)%nat
            /\ match_alt pats (skipn i s) = Some m
            /\ forall j, (j < i)%nat -> match_alt pats (skipn j s) = None.
Proof.
  induction s as [|c s IH]; simpl.
  - destruct (match_alt pats []) eqn:E; [|discriminate].
    intros H. injection H as <-. exists 0%nat.
    split; [reflexivity | split; [exact E | intros j Hj; lia]].
  - destruct (match_alt pats (c :: s)) eqn:E.
    + intros H. injection H as <-. exists 0%nat.
      split; [lia | split; [exact E | intros j Hj; lia]].
    + intros H. destruct (IH H) as (i & Hi & Hm & Hlt). exists (S i).
      split; [lia | split; [exact Hm |]].
      intros [|j] Hj; [exact E | apply Hlt; lia].
Qed.

Lemma re_search_none (pats : list str) (s : str) :
  re_search pats s = None <->
  forall i, (i <= List.length s)%nat -> match_alt pats (skipn i s) = None.
Proof.
  induction s as [|c s IH]; simpl.
  - destruct (match_alt pats []) eqn:E.
    + split; [discriminate|]. intros H. specialize (H 0%nat (Nat.le_refl _)).
      simpl in H. congruence.
    + split; [|reflexivity]. intros _ [|i] Hi; simpl; [assumption | lia].
  - destruct (match_alt pats (c :: s)) eqn:E.
    + split; [discriminate|]. intros H. specialize (H 0%nat (Nat.le_0_l _)).
      simpl in H. congruence.
    + rewrite IH. split.
      * intros H [|i] Hi; [exact E | apply H; lia].
      * intros H i Hi. apply (H (S i)). lia.
Qed.

(** No occurrence of any alternative: the search finds nothing. *)
Lemma re_search_absent (pats : list str) (s : str) :
  (forall w, In w pats -> ~ occurs w s) -> re_search pats s = None.
Proof.
  intros H. apply re_search_none. intros i Hi. apply match_alt_none.
  intros w Hin. destruct (match_word w (skipn i s)) as [m|] eqn:E; [|reflexivity].
  exfalso. apply (H w Hin). exists i. apply occurs_at_skipn. eauto.
Qed.

(** An occurrence inside the stripped string is one in the string. *)
Lemma occurs_strip (w s : str) : occurs w (strip s) -> occurs w s.
Proof.
  intros (i & pre & m & post & E & Hi & Hw).
  destruct (strip_split s) as (l & r & Es & _ & _).
  exists (List.length l + i)%nat, (l ++ pre), m, (post ++ r).
  split; [|split].
  - rewrite Es at 1. rewrite E. now rewrite <- !app_assoc.
  - rewrite length_app. lia.
  - assumption.
Qed.

Lemma occurs_search (w s : str) : occurs w s <-> re_search [w] s <> None.
Proof.
  split.
  - intros (i & Hi) E. apply occurs_at_skipn in Hi as (Hle & m & Hm).
    rewrite re_search_none in E. specialize (E i Hle). simpl in E.
    rewrite Hm in E. discriminate.
  - intros H. destruct (re_search [w] s) as [m|] eqn:E; [|contradiction].
    apply re_search_some in E as (i & Hle & Hm & _).
    apply match_alt_sound in Hm as (w' & [<- | []] & Hm).
    exists i. apply occurs_at_skipn. eauto.
Qed.

Lemma occurs_at_embed (w l s r : str) (j : nat) :
  occurs_at w j s -> occurs_at w (List.length l + j) (l ++ s ++ r).
Proof.
  intros (pre & m & post & -> & <- & Hw).
  exists (l ++ pre), m, (post ++ r). split; [|split].
  - now rewrite <- !app_assoc.
  - apply length_app.
  - assumption.
Qed.

(** ** The three keywords *)

Lemma keywords_cased (w : str) :
  In w Backend.keywords -> Forall (fun p => sre_iscased p = true) w.
Proof.
  intros [<- | [<- | [<- | []]]]; repeat constructor.
Qed.

Lemma ci_word_no_space (w m : str) :
  Forall (fun p => sre_iscased p = true) w -> ci_word w m ->
  Forall (fun c => isspace c = false) m.
Proof.
  intros Hw H. induction H as [|p c w m Hc _ IH]; constructor.
  - inversion Hw; subst. eapply ci_match_not_space; eassumption.
  - apply IH. now inversion Hw.
Qed.

Ltac plain_tac :=
  unfold plain_letter; vm_compute; repeat split; intros E; discriminate E.

Lemma plain_N : plain_letter 0x4E%N.
Proof. plain_tac. Qed.

Lemma plain_P : plain_letter 0x50%N.
Proof. plain_tac. Qed.

Lemma plain_lower (p : codepoint) :
  In p (lit "eutral") -> plain_letter p.
Proof.
  intros H. simpl in H.
  repeat (destruct H as [<- | H]; [plain_tac|]). contradiction.
Qed.

(** What a plain pattern letter matches is lowered to the lowercase
    letter, and titlecased to the uppercase one. *)
Lemma lower_cp_plain (p c : codepoint) :
  plain_letter p -> ci_match p c = true -> lower_cp c = [sre_lower p].
Proof.
  intros Hp H. pose proof (cased_lower_range p (proj1 Hp)) as R.
  destruct (ci_match_plain p c Hp H) as [E | [E Hu]].
  - rewrite <- E in *. clear E H Hp. unfold lower_cp, is_ascii_upper.
    split_tests; to_arith; try reflexivity; lia.
  - unfold lower_cp. rewrite Hu. now rewrite E.
Qed.

Lemma title_cp_plain (p c : codepoint) :
  plain_letter p -> ci_match p c = true -> title_cp c = [(sre_lower p - 32)%N].
Proof.
  intros Hp H. pose proof (cased_lower_range p (proj1 Hp)) as R.
  destruct (ci_match_plain p c Hp H) as [E | [E Hu]].
  - rewrite <- E in *. clear E H Hp. unfold title_cp, is_ascii_lower.
    split_tests; to_arith; try reflexivity; lia.
  - rewrite <- E. clear E H Hp R. revert Hu. unfold title_cp, is_ascii_lower, is_ascii_upper.
    intros Hu. split_tests; to_arith; try lia. f_equal. lia.
Qed.

Lemma capitalize_neutral (m : str) :
  ci_word (lit "Neutral") m -> capitalize m = lit "Neutral".
Proof.
  intros H. change (lit "Neutral") with (0x4E%N :: lit "eutral") in H.
  inversion H as [|p c w t Hc Ht]; subst. simpl.
  rewrite (title_cp_plain _ _ plain_N Hc).
  change (lit "Neutral") with ([0x4E%N] ++ map sre_lower (lit "eutral")).
  f_equal. clear H Hc.
  assert (Hp : Forall plain_letter (lit "eutral")).
  { apply Forall_forall. apply plain_lower. }
  revert Hp. induction Ht as [|p d w t Hd _ IH]; intros Hp; [reflexivity|].
  inversion Hp; subst. simpl. unfold lower in IH.
  rewrite (lower_cp_plain p d) by assumption. simpl. f_equal. now apply IH.
Qed.

(** For "Neutral" the comparison of the engine is plain ASCII case
    folding: the matches are the 128 spellings of the word. *)
Lemma neutral_any_case (m : str) :
  ci_word (lit "Neutral") m <-> map ascii_fold m = lit "neutral".
Proof.
  assert (Hp : Forall plain_letter (lit "Neutral")).
  { repeat constructor; plain_tac. }
  change (lit "neutral") with (map sre_lower (lit "Neutral")).
  revert Hp. generalize (lit "Neutral") as w. intros w Hp. split.
  - intros H. induction H as [|p c w m Hc _ IH]; [reflexivity|].
    inversion Hp; subst. simpl. f_equal; [|now apply IH].
    unfold ascii_fold.
    destruct (ci_match_plain p c) as [-> | [E Hu]]; try assumption.
    + match goal with
      | Hpl : plain_letter p |- _ => pose proof (cased_lower_range p (proj1 Hpl)) as R
      end.
      destruct (is_ascii_upper (sre_lower p)) eqn:U; [|reflexivity].
      unfold is_ascii_upper in U. to_arith. lia.
    + now rewrite Hu.
  - revert m. induction Hp as [|p w Pp _ IH]; intros [|c m] E; try discriminate.
    + constructor.
    + injection E as Ec Em. constructor; [|now apply IH].
      destruct Pp as (Hc & Hi & Hk & Hs). unfold ci_match. rewrite Hc. cbv zeta.
      apply orb_true_iff. left. apply N.eqb_eq. rewrite <- Ec.
      pose proof (cased_lower_range p Hc) as R. rewrite <- Ec in R.
      clear - R. unfold ascii_fold, sre_lower in *.
      destruct (is_ascii_upper c) eqn:U; [reflexivity|].
      destruct (c =? 0x130)%N eqn:E1; [apply N.eqb_eq in E1; lia|].
      destruct (c =? 0x212A)%N eqn:E2; [apply N.eqb_eq in E2; lia|].
      reflexivity.
Qed.

(** Where "Neutral" matches, neither of the other two words does. *)
Lemma neutral_excludes (m rest : str) :
  ci_word (lit "Neutral") m ->
  match_word (lit "Positive") (m ++ rest) = None
  /\ match_word (lit "Negative") (m ++ rest) = None.
Proof.
  intros H. change (lit "Neutral") with (0x4E%N :: 0x65%N :: 0x75%N :: lit "tral") in H.
  inversion H as [|p1 c1 w1 t1 H1 T1]; subst.
  inversion T1 as [|p2 c2 w2 t2 H2 T2]; subst.
  inversion T2 as [|p3 c3 w3 t3 H3 T3]; subst.
  assert (P3 : plain_letter 0x75%N) by plain_tac.
  split.
  - change (lit "Positive") with (0x50%N :: lit "ositive"). simpl.
    destruct (ci_match_plain _ _ plain_N H1) as [-> | [E _]].
    + reflexivity.
    + change (sre_lower 0x4E) with 0x6E%N in E.
      assert (c1 = 0x4E%N) as -> by lia. reflexivity.
  - change (lit "Negative") with (0x4E%N :: 0x65%N :: 0x67%N :: lit "ative"). simpl.
    rewrite H1, H2.
    destruct (ci_match_plain _ _ P3 H3) as [-> | [E _]].
    + reflexivity.
    + change (sre_lower 0x75) with 0x75%N in E.
      assert (c3 = 0x55%N) as -> by lia. reflexivity.
Qed.

(** ** The extraction step on a reply that carries a text *)

Lemma extract_carries (result : json) (reply : str) :
  carries result reply ->
  Backend.extract_sentiment result =
  match re_search Backend.keywords (strip reply) with
  | Some m => Ret (Backend.sentiment_dict (capitalize m))
  | None => Ret (Backend.sentiment_dict (slice_to 50 (strip reply)))
  end.
Proof.
  intros (d & -> & Hd). unfold Backend.extract_sentiment.
  cbv beta iota delta [obind py_in py_getitem py_strip]. rewrite Hd.
  reflexivity.
Qed.

(** The keyword is found inside a longer word, between punctuation and
    behind whitespace. *)
Example extract_embedded :
  Backend.extract_sentiment (Examples.as_result Examples.reply_embedded)
  = Ret (Backend.sentiment_dict (lit "Neutral")).
Proof. reflexivity. Qed.

(** Capital I with dot above is matched by the pattern letter i, and is
    lowered to i followed by a combining dot. *)
Example extract_dotted :
  Backend.extract_sentiment (Examples.as_result Examples.reply_dotted)
  = Ret (Backend.sentiment_dict (lit "Posi" ++ [0x307%N] ++ lit "tive")).
Proof. reflexivity. Qed.

(** A reply that is not text, and a payload that is not a dictionary. *)
Example extract_number :
  Backend.extract_sentiment (JDict [(lit "response", JInt 7)]) = Raise AttributeError.
Proof. reflexivity. Qed.

Example extract_list :
  Backend.extract_sentiment (JList [JStr (lit "response")]) = Raise TypeError.
Proof. reflexivity. Qed.

Lemma neutral_keyword : In (lit "Neutral") Backend.keywords.
Proof. right; right; left; reflexivity. Qed.

Lemma search_neutral (s : str) (i : nat) :
  occurs_at (lit "Neutral") i s ->
  (forall j, (j < i)%nat ->
     ~ occurs_at (lit "Positive") j s /\ ~ occurs_at (lit "Negative") j s) ->
  exists m, re_search Backend.keywords s = Some m /\ ci_word (lit "Neutral") m.
Proof.
  intros Hn Hbefore.
  pose proof Hn as Hn'. apply occurs_at_skipn in Hn' as (Hle & m0 & Hm0).
  destruct (re_search Backend.keywords s) as [m|] eqn:E.
  - exists m. split; [reflexivity|].
    apply re_search_some in E as (i0 & Hle0 & Halt & Hfirst).
    assert (Hi0 : (i0 <= i)%nat).
    { destruct (Nat.le_gt_cases i0 i) as [|Hlt]; [assumption|].
      specialize (Hfirst i Hlt). rewrite match_alt_none in Hfirst.
      rewrite (Hfirst _ neutral_keyword) in Hm0. discriminate. }
    apply match_alt_sound in Halt as (w & Hin & Hw).
    assert (Hocc : occurs_at w i0 s) by (apply occurs_at_skipn; eauto).
    destruct Hin as [<- | [<- | [<- | []]]].
    + exfalso. apply Nat.lt_eq_cases in Hi0 as [Hlt | ->].
      * exact (proj1 (Hbefore i0 Hlt) Hocc).
      * destruct Hn as (pre & mn & post & -> & <- & Hmn).
        rewrite skipn_length_app in Hw.
        destruct (neutral_excludes mn post Hmn) as [Hp _]. congruence.
    + exfalso. apply Nat.lt_eq_cases in Hi0 as [Hlt | ->].
      * exact (proj2 (Hbefore i0 Hlt) Hocc).
      * destruct Hn as (pre & mn & post & -> & <- & Hmn).
        rewrite skipn_length_app in Hw.
        destruct (neutral_excludes mn post Hmn) as [_ Hg]. congruence.
    + apply match_word_sound in Hw as (rest & _ & Hw). exact Hw.
  - exfalso. rewrite re_search_none in E. specialize (E i Hle).
    rewrite match_alt_none in E.
    rewrite (E _ neutral_keyword) in Hm0. discriminate.
Qed.

(* ================================================================== *)
(** * Facts about the request handler                                  *)
(* ================================================================== *)

Import Backend.

Lemma listed_existsb (name : str) (available : list json) :
  existsb (str_eq_json name) available = true <-> listed name available.
Proof.
  unfold listed. rewrite existsb_exists. split.
  - intros (v & Hin & Hv). destruct v; simpl in Hv; try discriminate.
    apply str_eqb_eq in Hv. now subst.
  - intros H. exists (JStr name). split; [assumption|]. simpl. now apply str_eqb_eq.
Qed.

(** ** Model selection *)

(** The loop assigns the first option that is listed, and nothing when
    there is none; it makes no call and cannot raise. *)
Lemma select_first_run (options : list str) (available : list json) (s : state) :
  select_first options available s =
  (Ret tt,
   {| MODEL_NAME := match find (fun o => existsb (str_eq_json o) available) options with
                    | Some o => o
                    | None => MODEL_NAME s
                    end;
      calls := calls s |}).
Proof.
  induction options as [|o options IH]; simpl.
  - now destruct s.
  - destruct (existsb (str_eq_json o) available); [reflexivity | exact IH].
Qed.

Lemma find_first_listed (options before after : list str) (c : str) (available : list json) :
  options = before ++ c :: after -> listed c available ->
  (forall b, In b before -> ~ listed b available) ->
  find (fun o => existsb (str_eq_json o) available) options = Some c.
Proof.
  intros -> Hc Hb. induction before as [|b before IH]; simpl.
  - apply listed_existsb in Hc. now rewrite Hc.
  - destruct (existsb (str_eq_json b) available) eqn:E.
    + apply listed_existsb in E. exfalso. apply (Hb b); simpl; auto.
    + apply IH. intros b' Hin. apply Hb. simpl; auto.
Qed.

Lemma find_none_listed (options : list str) (available : list json) :
  (forall c, In c options -> ~ listed c available) ->
  find (fun o => existsb (str_eq_json o) available) options = None.
Proof.
  intros H. induction options as [|o options IH]; simpl; [reflexivity|].
  destruct (existsb (str_eq_json o) available) eqn:E.
  - apply listed_existsb in E. exfalso. apply (H o); simpl; auto.
  - apply IH. intros c Hin. apply H. simpl; auto.
Qed.

(** The payload of the tags endpoint: one dictionary per model. *)
Lemma available_names_tags (names : list str) :
  available_names (Examples.tags_body names) = Ret (map JStr names).
Proof.
  unfold available_names, Examples.tags_body.
  cbv beta iota delta [py_get obind dict_lookup py_iter].
  change (str_eqb (lit "models") (lit "models")) with true. cbv iota.
  induction names as [|n names IH]; [reflexivity|].
  simpl map. cbn [comprehension]. rewrite IH. reflexivity.
Qed.

(** ** The two stages of [analyze_sentiment] *)

Lemma probe_run (w : world) (s : state) :
  probe w s =
  let s1 := record (HttpGet tags_url 3) s in
  match http_get w tags_url 3 with
  | Raise e => (Raise e, s1)
  | Ret check_response =>
      if (status_code check_response =? 200)%Z then
        match json_body check_response with
        | Raise e => (Raise e, s1)
        | Ret body =>
            match available_names body with
            | Raise e => (Raise e, s1)
            | Ret available_models => select_first candidates available_models s1
            end
        end
      else (Ret tt, s1)
  end.
Proof.
  unfold probe, bind, requests_get, lift, ret. cbv zeta.
  destruct (http_get w tags_url 3) as [check|e]; [|reflexivity].
  destruct (status_code check =? 200)%Z; [|reflexivity].
  destruct (json_body check) as [body|e]; [|reflexivity].
  destruct (available_names body) as [names|e]; reflexivity.
Qed.

Lemma analyze_run (w : world) (text : str) (s : state) :
  strip text <> [] ->
  analyze_sentiment w text s =
  match probe w s with
  | (Ret _, s') => generate w (prompt_of text) s'
  | (Raise _, s') => (Ret (sentiment_dict not_running), s')
  end.
Proof.
  intros Hne. unfold analyze_sentiment.
  destruct (strip text) as [|c t]; [contradiction|].
  unfold bind at 1. unfold try_except. unfold bind at 1.
  destruct (probe w s) as [[[]|e] s']; reflexivity.
Qed.

(** ** The generation stage *)

(** A capitalized keyword match starts with P or N. *)
Lemma capitalize_keyword (w m : str) :
  In w keywords -> ci_word w m ->
  exists t, capitalize m = 0x50%N :: t \/ capitalize m = 0x4E%N :: t.
Proof.
  intros Hin Hw.
  assert (Hhead : exists p w', w = p :: w' /\ (p = 0x50%N \/ p = 0x4E%N)).
  { destruct Hin as [<- | [<- | [<- | []]]]; eexists; eexists;
      (split; [reflexivity | auto]). }
  destruct Hhead as (p & w' & -> & Hp).
  inversion Hw as [|p' c w'' t Hc Ht]; subst. simpl.
  destruct Hp as [-> | ->].
  - rewrite (title_cp_plain _ _ plain_P Hc). exists (lower t). left. reflexivity.
  - rewrite (title_cp_plain _ _ plain_N Hc). exists (lower t). right. reflexivity.
Qed.

(** Fifty characters are too few for the diagnostic of the probe. *)
Lemma slice_not_running (raw : str) : slice_to 50 raw <> not_running.
Proof.
  intros E. apply (f_equal (@List.length _)) in E.
  unfold slice_to in E. rewrite length_firstn in E.
  change (List.length not_running) with 55%nat in E. lia.
Qed.

(** The extraction step, when it does not raise, yields a sentiment
    dictionary whose label is not the diagnostic of the probe. *)
Lemma extract_label (result d : json) :
  extract_sentiment result = Ret d ->
  exists label, d = sentiment_dict label /\ label <> not_running.
Proof.
  unfold extract_sentiment.
  destruct (py_in (lit "response") result) as [[|]|e]; simpl; try discriminate.
  - destruct (py_getitem result (lit "response")) as [reply|e]; simpl; try discriminate.
    destruct (py_strip reply) as [raw|e]; simpl; try discriminate.
    destruct (re_search keywords raw) as [m|] eqn:E; intros H; injection H as <-;
      eexists; (split; [reflexivity|]).
    + apply re_search_some in E as (i & _ & Halt & _).
      apply match_alt_sound in Halt as (w & Hin & Hw).
      apply match_word_sound in Hw as (rest & _ & Hw).
      destruct (capitalize_keyword w m Hin Hw) as (t & [-> | ->]); discriminate.
    + apply slice_not_running.
  - intros H; injection H as <-. eexists. split; [reflexivity | discriminate].
Qed.

(** Whatever is raised in the second [try] is answered by one of its
    clauses with a sentiment dictionary; the model is left as it is. *)
Lemma generate_clauses_run (w : world) (e : exn) (s : state) :
  exists label rest,
    dispatch (generate_clauses w) e s =
    (Ret (sentiment_dict label),
     {| MODEL_NAME := MODEL_NAME s; calls := calls s ++ rest |})
    /\ label <> not_running.
Proof.
  destruct s as [model cs]. unfold generate_clauses, dispatch.
  destruct (is_ConnectionError e).
  { eexists; exists []. rewrite app_nil_r. split; [reflexivity | discriminate]. }
  destruct (is_RequestException e).
  - unfold on_request_exception.
    destruct (contains (lit "model not found") (lower (exn_str e))).
    + unfold try_except, bind, read_MODEL_NAME, subprocess_Popen, ret, record. simpl.
      destruct (popen w _) as [[]|e']; simpl.
      * eexists; eexists. split; [reflexivity | discriminate].
      * eexists; eexists. split; [reflexivity | discriminate].
    + eexists; exists []. rewrite app_nil_r. split; [reflexivity | discriminate].
  - simpl. eexists; exists []. rewrite app_nil_r. split; [reflexivity | discriminate].
Qed.

(** The generation stage always returns a sentiment dictionary, after
    one POST carrying the selected model, which it does not change. *)
Lemma generate_run (w : world) (prompt : str) (s : state) :
  exists label rest,
    generate w prompt s =
    (Ret (sentiment_dict label),
     {| MODEL_NAME := MODEL_NAME s;
        calls := calls s
                 ++ HttpPost generate_url (generate_payload (MODEL_NAME s) prompt) 15
                    :: rest |})
    /\ label <> not_running.
Proof.
  unfold generate, try_except, generate_body.
  unfold bind, read_MODEL_NAME, requests_post, lift.
  set (posted := HttpPost generate_url (generate_payload (MODEL_NAME s) prompt) 15).
  assert (Hraise : forall e,
    exists label rest,
      dispatch (generate_clauses w) e (record posted s) =
      (Ret (sentiment_dict label),
       {| MODEL_NAME := MODEL_NAME s; calls := calls s ++ posted :: rest |})
      /\ label <> not_running).
  { intros e. destruct (generate_clauses_run w e (record posted s)) as (label & rest & E & Hl).
    exists label, rest. split; [|assumption]. rewrite E. simpl.
    now rewrite <- app_assoc. }
  destruct (http_post w generate_url (generate_payload (MODEL_NAME s) prompt) 15)
    as [response|e]; [|apply Hraise].
  destruct (raise_for_status response) as [[]|e]; [|apply Hraise].
  destruct (json_body response) as [result|e]; [|apply Hraise].
  destruct (extract_sentiment result) as [d|e] eqn:E; [|apply Hraise].
  destruct (extract_label _ _ E) as (label & -> & Hl).
  exists label, []. split; [reflexivity | assumption].
Qed.

(** Across one call of the handler the model stays, or becomes one of
    the candidates. *)
Lemma analyze_model (w : world) (text : str) (s : state) :
  let s' := snd (analyze_sentiment w text s) in
  MODEL_NAME s' = MODEL_NAME s \/ In (MODEL_NAME s') candidates.
Proof.
  cbv zeta. destruct (strip text) as [|c t] eqn:Hs.
  - unfold analyze_sentiment. rewrite Hs. left. reflexivity.
  - rewrite analyze_run by (rewrite Hs; discriminate).
    assert (Hp : MODEL_NAME (snd (probe w s)) = MODEL_NAME s
                 \/ In (MODEL_NAME (snd (probe w s))) candidates).
    { rewrite probe_run. cbv zeta.
      destruct (http_get w tags_url 3) as [check|e]; [|left; reflexivity].
      destruct (status_code check =? 200)%Z; [|left; reflexivity].
      destruct (json_body check) as [body|e]; [|left; reflexivity].
      destruct (available_names body) as [names|e]; [|left; reflexivity].
      rewrite select_first_run. cbn [snd MODEL_NAME].
      match goal with
      | |- context [find ?f ?l] => destruct (find f l) as [o|] eqn:F
      end; [right | left; reflexivity].
      now apply find_some in F as [Hin _]. }
    destruct (probe w s) as [[[]|e] s']; simpl in Hp |- *; [|exact Hp].
    destruct (generate_run w (prompt_of text) s') as (label & rest & -> & _).
    exact Hp.
Qed.

(* ================================================================== *)
(** * Facts about the client view                                      *)
(* ================================================================== *)

Lemma startswith_prefix (p s : str) :
  startswith p s = true <-> exists post, s = p ++ post.
Proof.
  revert s. induction p as [|a p IH]; intros s; simpl.
  - split; [intros _; now exists s | reflexivity].
  - destruct s as [|b s].
    + split; [discriminate | intros (post & E); discriminate].
    + rewrite andb_true_iff, N.eqb_eq, IH. split.
      * intros (-> & post & ->). now exists post.
      * intros (post & E). injection E as -> ->. split; [reflexivity | now exists post].
Qed.

Lemma contains_substring (needle s : str) :
  contains needle s = true <-> substring needle s.
Proof.
  unfold substring. induction s as [|c s IH]; simpl.
  - rewrite orb_false_r, startswith_prefix. split.
    + intros (post & E). exists [], post. exact E.
    + intros (pre & post & E). destruct pre; [now exists post | discriminate].
  - rewrite orb_true_iff, startswith_prefix, IH. split.
    + intros [(post & E) | (pre & post & E)].
      * exists [], post. exact E.
      * exists (c :: pre), post. simpl. now rewrite E.
    + intros (pre & post & E). destruct pre as [|d pre].
      * left. now exists post.
      * right. injection E as _ E. now exists pre, post.
Qed.

(** What the button displays for a 200 whose body holds a string under
    "sentiment". *)
Lemma button_shows (post : str -> dict -> Z -> outcome response)
    (text_input : str) (res : response) (body : dict) (sentiment : str) :
  strip text_input <> [] -> answered post text_input res -> ok_with res body ->
  dict_lookup (lit "sentiment") body = Some (JStr sentiment) ->
  Ret (Frontend.analyze_button post text_input)
  = Frontend.show_sentiment (JStr sentiment).
Proof.
  intros Hne Hpost [Hst Hbody] Hlook. unfold Frontend.analyze_button.
  destruct (strip text_input) as [|c t]; [contradiction|].
  unfold answered in Hpost. rewrite Hpost.
  cbv beta iota delta [obind Frontend.show_response py_get].
  rewrite Hst, Hbody. cbv beta iota. rewrite Hlook.
  change (200 =? 200)%Z with true. cbv beta iota.
  unfold Frontend.show_sentiment, str_eq_json, py_in, obind.
  repeat match goal with |- context [if ?b then _ else _] => destruct b end;
    reflexivity.
Qed.

(* ================================================================== *)
(** * Facts about the framework's answer                               *)
(* ================================================================== *)

(** The handler always returns a sentiment dictionary. *)
Lemma analyze_returns (w : world) (text : str) (s : state) :
  exists label, fst (analyze_sentiment w text s) = Ret (sentiment_dict label).
Proof.
  destruct (strip text) as [|c t] eqn:Hs.
  - unfold analyze_sentiment. rewrite Hs. eexists. reflexivity.
  - rewrite analyze_run by (rewrite Hs; discriminate).
    destruct (probe w s) as [[[]|e] s'].
    + destruct (generate_run w (prompt_of text) s') as (label & rest & -> & _).
      exists label. reflexivity.
    + exists not_running. reflexivity.
Qed.

Lemma strip_nonempty (text : str) : strip text <> [] -> text <> [].
Proof. intros H ->. now apply H. Qed.

(** A sentiment dictionary can be encoded exactly when its label can. *)
Lemma encodable_sentiment (label : str) :
  encodable (sentiment_dict label) = str_encodable label.
Proof.
  unfold sentiment_dict. cbn [encodable forallb fst snd].
  change (str_encodable (lit "sentiment")) with true.
  now rewrite andb_true_r.
Qed.

(** The framework leaves the state the handler left. *)
Lemma serve_state (handler : M json) (s : state) : snd (serve handler s) = snd (handler s).
Proof.
  unfold serve. destruct (handler s) as [[d|e] s']; [|reflexivity].
  now destruct (encodable d).
Qed.

Lemma handle_state (w : world) (r : request) (s : state) :
  snd (handle w r s) =
  match r with
  | GET_root => s
  | POST_analyze text => snd (analyze_sentiment w text s)
  end.
Proof.
  destruct r as [|text]; unfold handle.
  - now rewrite serve_state.
  - destruct text as [|c t]; [reflexivity | apply serve_state].
Qed.

(** A text that is not empty reaches the function, and a label that can
    be encoded is sent as a 200. *)
Lemma handle_encodable (w : world) (text label : str) (s : state) :
  text <> [] ->
  fst (analyze_sentiment w text s) = Ret (sentiment_dict label) ->
  str_encodable label = true ->
  fst (handle w (POST_analyze text) s)
  = {| reply_status := 200; reply_json := Some (sentiment_dict label) |}.
Proof.
  intros Hne Hl He. unfold handle. destruct text as [|c t]; [contradiction|].
  unfold serve. destruct (analyze_sentiment w (c :: t) s) as [[d|e] s'];
    simpl in Hl; [|discriminate].
  injection Hl as ->. now rewrite encodable_sentiment, He.
Qed.

Lemma handle_unencodable (w : world) (text label : str) (s : state) :
  text <> [] ->
  fst (analyze_sentiment w text s) = Ret (sentiment_dict label) ->
  str_encodable label = false ->
  fst (handle w (POST_analyze text) s) = {| reply_status := 500; reply_json := None |}.
Proof.
  intros Hne Hl He. unfold handle. destruct text as [|c t]; [contradiction|].
  unfold serve. destruct (analyze_sentiment w (c :: t) s) as [[d|e] s'];
    simpl in Hl; [|discriminate].
  injection Hl as ->. now rewrite encodable_sentiment, He.
Qed.

(* ================================================================== *)
(** * The properties                                                   *)
(* ================================================================== *)

Import Examples.

(** ** Extraction of the label (lines 78-87) *)

(** C1, as stated, fails: the reply "Positive, not neutral" contains
    "neutral", yet the search stops at the keyword that comes first and
    the label is "Positive". *)
Lemma C1_counterexample :
  occurs (lit "Neutral") reply_both
  /\ extract_sentiment (as_result reply_both) = Ret (sentiment_dict (lit "Positive"))
  /\ extract_sentiment (as_result reply_both) <> Ret (sentiment_dict (lit "Neutral")).
Proof.
  split; [|split].
  - apply occurs_search. vm_compute. discriminate.
  - vm_compute. reflexivity.
  - vm_compute. discriminate.
Qed.

(** C1 (amended): when the reply contains "Neutral" in some letter case
    from index [i] on, and neither "Positive" nor "Negative" occurs, in
    any letter case, from an earlier index, the extraction step returns
    exactly the label "Neutral". *)
Theorem C1_neutral_first (result : json) (reply : str) (i : nat) :
  carries result reply ->
  occurs_at (lit "Neutral") i reply ->
  (forall j, (j < i)%nat ->
     ~ occurs_at (lit "Positive") j reply /\ ~ occurs_at (lit "Negative") j reply) ->
  extract_sentiment result = Ret (sentiment_dict (lit "Neutral")).
Proof.
  intros Hc Hn Hbefore. rewrite (extract_carries _ _ Hc).
  destruct Hn as (pre & mn & post & -> & <- & Hmn).
  assert (Hns : Forall (fun c => isspace c = false) mn).
  { eapply ci_word_no_space; [|exact Hmn]. apply keywords_cased, neutral_keyword. }
  assert (Hne : mn <> []).
  { intros ->. inversion Hmn. }
  rewrite (strip_around pre mn post Hne Hns).
  destruct (lstrip_split pre) as (l & El & _).
  destruct (rstrip_split post) as (r & Er & _).
  destruct (search_neutral (lstrip pre ++ mn ++ rstrip post) (List.length (lstrip pre)))
    as (m & -> & Hm).
  - exists (lstrip pre), mn, (rstrip post). auto.
  - intros j Hj.
    assert (Hshift : forall w, occurs_at w j (lstrip pre ++ mn ++ rstrip post) ->
                               occurs_at w (List.length l + j) (pre ++ mn ++ post)).
    { intros w Hw. apply (occurs_at_embed w l _ r) in Hw.
      rewrite El at 1. rewrite Er at 1.
      repeat rewrite <- app_assoc in Hw. repeat rewrite <- app_assoc. exact Hw. }
    assert (Hlt : (List.length l + j < List.length pre)%nat).
    { rewrite El at 1. rewrite length_app. lia. }
    destruct (Hbefore _ Hlt) as [Hp Hg]. split; intros Hw; [apply Hp | apply Hg];
      now apply Hshift.
  - now rewrite (capitalize_neutral m Hm).
Qed.

Lemma C1_neutral_first_witness :
  occurs_at (lit "Neutral") 6 reply_neutral
  /\ extract_sentiment (as_result reply_neutral) = Ret (sentiment_dict (lit "Neutral")).
Proof.
  assert (Hn : occurs_at (lit "Neutral") 6 reply_neutral).
  { apply occurs_at_skipn. split; [vm_compute; lia | eexists; vm_compute; reflexivity]. }
  split; [exact Hn|].
  apply (C1_neutral_first (as_result reply_neutral) reply_neutral 6).
  - eexists. split; reflexivity.
  - exact Hn.
  - intros j Hj.
    do 6 (destruct j as [|j];
          [split; intros H; apply occurs_at_skipn in H as (_ & m & Hm);
           vm_compute in Hm; discriminate Hm|]).
    lia.
Defined.

(** C2, as stated, fails: the reply " ok" holds no keyword, and the
    label is "ok", which is not the first 50 characters of the reply:
    those start with the space. *)
Lemma C2_counterexample :
  ~ occurs (lit "Positive") reply_padded
  /\ ~ occurs (lit "Negative") reply_padded
  /\ ~ occurs (lit "Neutral") reply_padded
  /\ extract_sentiment (as_result reply_padded) = Ret (sentiment_dict (lit "ok"))
  /\ extract_sentiment (as_result reply_padded)
     <> Ret (sentiment_dict (slice_to 50 reply_padded)).
Proof.
  repeat split; try (rewrite occurs_search; vm_compute; intros H; now apply H).
  vm_compute. discriminate.
Qed.

(** C2 (amended): when none of "Positive", "Negative", "Neutral" occurs
    in the reply, in any letter case, the extraction step returns the
    first 50 characters of the reply stripped of its leading and trailing
    whitespace. *)
Theorem C2_fallback_prefix (result : json) (reply : str) :
  carries result reply ->
  ~ occurs (lit "Positive") reply ->
  ~ occurs (lit "Negative") reply ->
  ~ occurs (lit "Neutral") reply ->
  extract_sentiment result = Ret (sentiment_dict (slice_to 50 (strip reply))).
Proof.
  intros Hc Hp Hg Hn. rewrite (extract_carries _ _ Hc).
  rewrite re_search_absent; [reflexivity|].
  intros w [<- | [<- | [<- | []]]] Hw; apply occurs_strip in Hw; contradiction.
Qed.

Lemma C2_fallback_prefix_witness :
  extract_sentiment (as_result reply_padded)
  = Ret (sentiment_dict (slice_to 50 (strip reply_padded))).
Proof.
  apply (C2_fallback_prefix (as_result reply_padded) reply_padded).
  - eexists. split; reflexivity.
  - rewrite occurs_search. vm_compute. intros H. now apply H.
  - rewrite occurs_search. vm_compute. intros H. now apply H.
  - rewrite occurs_search. vm_compute. intros H. now apply H.
Defined.

(** ** Model selection (lines 43-52) *)

(** C3: when the tags endpoint answers 200 with a list of names, the
    selected model after the call is the first of "phi", "tinyllama",
    "gemma:2b", "llama2" that is listed; with "tinyllama" listed and
    "phi" not, it is "tinyllama"; with none listed, it is the model
    selected before. *)
Theorem C3_model_selection (w : world) (text : str) (s : state)
    (check_response : response) (body : json) (available : list json) :
  strip text <> [] ->
  http_get w tags_url 3 = Ret check_response ->
  status_code check_response = 200%Z ->
  json_body check_response = Ret body ->
  available_names body = Ret available ->
  let priority := [lit "phi"; lit "tinyllama"; lit "gemma:2b"; lit "llama2"] in
  let selected := MODEL_NAME (snd (analyze_sentiment w text s)) in
  (forall before c after,
      priority = before ++ c :: after ->
      listed c available ->
      (forall b, In b before -> ~ listed b available) ->
      selected = c)
  /\ (listed (lit "tinyllama") available -> ~ listed (lit "phi") available ->
      selected = lit "tinyllama")
  /\ ((forall c, In c priority -> ~ listed c available) -> selected = MODEL_NAME s).
Proof.
  intros Hne Hget Hst Hbody Hnames priority selected.
  assert (Hsel : selected =
                 match find (fun o => existsb (str_eq_json o) available) candidates with
                 | Some o => o
                 | None => MODEL_NAME s
                 end).
  { unfold selected. rewrite analyze_run by assumption.
    rewrite probe_run. cbv zeta. rewrite Hget, Hst, Hbody, Hnames.
    change (200 =? 200)%Z with true. cbv iota. rewrite select_first_run.
    match goal with
    | |- context [generate w ?p ?s1] =>
        destruct (generate_run w p s1) as (label & rest & -> & _)
    end.
    reflexivity. }
  assert (Hfirst : forall before c after,
             priority = before ++ c :: after ->
             listed c available ->
             (forall b, In b before -> ~ listed b available) ->
             selected = c).
  { intros before c after E Hc Hb. rewrite Hsel.
    now rewrite (find_first_listed candidates before after c available E Hc Hb). }
  split; [exact Hfirst | split].
  - intros Ht Hp. apply (Hfirst [lit "phi"] (lit "tinyllama") [lit "gemma:2b"; lit "llama2"]).
    + reflexivity.
    + exact Ht.
    + intros b [<- | []]. exact Hp.
  - intros Hnone. rewrite Hsel. now rewrite (find_none_listed candidates available Hnone).
Qed.

Lemma C3_model_selection_witness :
  MODEL_NAME (snd (analyze_sentiment world_tiny (lit "hi") initial)) = lit "tinyllama".
Proof.
  apply (C3_model_selection world_tiny (lit "hi") initial
           (ok_response (tags_body [lit "tinyllama"; lit "llama2"]))
           (tags_body [lit "tinyllama"; lit "llama2"])
           [JStr (lit "tinyllama"); JStr (lit "llama2")]).
  - vm_compute. discriminate.
  - reflexivity.
  - reflexivity.
  - reflexivity.
  - reflexivity.
  - left. reflexivity.
  - intros [H | [H | []]]; vm_compute in H; discriminate H.
Defined.

(** ** The probe (lines 39-55) *)

(** C4: for a text that is not blank, when the probe raises, the handler
    returns the diagnostic telling to start Ollama, and the probe is the
    only call made: the generation endpoint is not called. *)
Theorem C4_probe_failure (w : world) (text : str) (s : state) (e : exn) :
  strip text <> [] ->
  http_get w tags_url 3 = Raise e ->
  fst (analyze_sentiment w text s)
  = Ret (sentiment_dict (lit "Error: Ollama is not running. Start with 'ollama serve'"))
  /\ calls (snd (analyze_sentiment w text s)) = calls s ++ [HttpGet tags_url 3].
Proof.
  intros Hne Hget. rewrite analyze_run by assumption.
  rewrite probe_run. cbv zeta. rewrite Hget. split; reflexivity.
Qed.

Lemma C4_probe_failure_witness :
  fst (analyze_sentiment world_down (lit "I love it") initial)
  = Ret (sentiment_dict (lit "Error: Ollama is not running. Start with 'ollama serve'"))
  /\ calls (snd (analyze_sentiment world_down (lit "I love it") initial))
     = calls initial ++ [HttpGet tags_url 3].
Proof.
  apply (C4_probe_failure world_down (lit "I love it") initial
           (RequestsError ConnectionError (lit "Connection refused"))).
  - vm_compute. discriminate.
  - reflexivity.
Defined.

(** C5: for a text made of whitespace only, the handler returns the
    message asking for text and leaves the state as it was: no call of
    any kind is made. *)
Theorem C5_blank_input (w : world) (text : str) (s : state) :
  blank text ->
  analyze_sentiment w text s
  = (Ret (sentiment_dict (lit "Please provide some text to analyze")), s).
Proof.
  intros Hb. unfold analyze_sentiment. now rewrite (strip_blank text Hb).
Qed.

Lemma C5_blank_input_witness :
  analyze_sentiment world_down (lit "   ") initial
  = (Ret (sentiment_dict (lit "Please provide some text to analyze")), initial).
Proof.
  apply (C5_blank_input world_down (lit "   ") initial).
  repeat constructor.
Defined.

(** C6, as stated, fails at the endpoint.  A request whose text is
    empty is answered 422.  And for the text "hello" and a model reply
    that is the lone surrogate U+D800, the function returns the
    dictionary holding that code point under "sentiment", the framework
    cannot encode it, and the answer is a 500. *)
Lemma C6_counterexample :
  reply_status (fst (handle world_surrogate (POST_analyze []) initial)) = 422%Z
  /\ fst (analyze_sentiment world_surrogate (lit "hello") initial)
     = Ret (sentiment_dict [0xD800%N])
  /\ fst (handle world_surrogate (POST_analyze (lit "hello")) initial)
     = {| reply_status := 500; reply_json := None |}.
Proof. repeat split; vm_compute; reflexivity. Qed.

(** C6 (amended): whatever the text and whatever the outside answers or
    raises, the function raises nothing and returns a dictionary holding
    a string under "sentiment"; for a text that is not empty, the
    endpoint answers 200 with that dictionary whenever the string can be
    encoded as UTF-8.  A request whose text is empty does not reach the
    function: it is answered 422 and the state stays. *)
Theorem C6_success_shaped (w : world) (text : str) (s : state) :
  (exists label,
      fst (analyze_sentiment w text s) = Ret (sentiment_dict label)
      /\ (text <> [] -> str_encodable label = true ->
          fst (handle w (POST_analyze text) s)
          = {| reply_status := 200; reply_json := Some (sentiment_dict label) |}))
  /\ (text = [] ->
      reply_status (fst (handle w (POST_analyze text) s)) = 422%Z
      /\ snd (handle w (POST_analyze text) s) = s).
Proof.
  split.
  - destruct (analyze_returns w text s) as (label & Hl).
    exists label. split; [exact Hl|].
    intros Hne He. now apply handle_encodable.
  - intros ->. split; reflexivity.
Qed.

Lemma C6_success_shaped_witness :
  fst (handle world_down (POST_analyze (lit "I love it")) initial)
  = {| reply_status := 200;
       reply_json := Some (sentiment_dict
                             (lit "Error: Ollama is not running. Start with 'ollama serve'")) |}
  /\ reply_status (fst (handle world_down (POST_analyze []) initial)) = 422%Z.
Proof.
  split.
  - destruct (C6_success_shaped world_down (lit "I love it") initial)
      as [(label & Hl & H) _].
    assert (E : label = lit "Error: Ollama is not running. Start with 'ollama serve'").
    { vm_compute in Hl. injection Hl as Hl. rewrite <- Hl. reflexivity. }
    rewrite E in H. apply H; [discriminate | reflexivity].
  - destruct (C6_success_shaped world_down [] initial) as [_ H].
    exact (proj1 (H eq_refl)).
Defined.

(** ** The client's rendering (lines 54-67) *)

(** C7: for a 200 answer holding the string [sentiment], the box
    displayed has success styling for exactly "Positive", error styling
    for exactly "Negative", informational styling for exactly "Neutral",
    error styling for any other string containing "Error" (so for every
    "Error: x"), and warning styling for every remaining string. *)
Theorem C7_rendering (post : str -> dict -> Z -> outcome response)
    (text_input : str) (res : response) (body : dict) (sentiment : str) :
  strip text_input <> [] -> answered post text_input res -> ok_with res body ->
  dict_lookup (lit "sentiment") body = Some (JStr sentiment) ->
  let style := Frontend.styling_of (Frontend.analyze_button post text_input) in
  let other := sentiment <> lit "Positive" /\ sentiment <> lit "Negative"
               /\ sentiment <> lit "Neutral" in
  (sentiment = lit "Positive" -> style = Frontend.Success)
  /\ (sentiment = lit "Negative" -> style = Frontend.Error)
  /\ (sentiment = lit "Neutral" -> style = Frontend.Informational)
  /\ (other -> substring (lit "Error") sentiment -> style = Frontend.Error)
  /\ (forall x, sentiment = lit "Error: " ++ x -> style = Frontend.Error)
  /\ (other -> ~ substring (lit "Error") sentiment -> style = Frontend.Warning).
Proof.
  intros Hne Hpost Hok Hlook style other.
  pose proof (button_shows post text_input res body sentiment Hne Hpost Hok Hlook) as E.
  assert (Hother : other -> forall b, contains (lit "Error") sentiment = b ->
            style = if b then Frontend.Error else Frontend.Warning).
  { intros (Hp & Hg & Hn) b Hb. apply str_eqb_neq in Hp, Hg, Hn.
    unfold Frontend.show_sentiment, str_eq_json in E.
    rewrite (proj2 (str_eqb_neq _ _)) in E by (apply not_eq_sym, str_eqb_neq, Hp).
    rewrite (proj2 (str_eqb_neq _ _)) in E by (apply not_eq_sym, str_eqb_neq, Hg).
    rewrite (proj2 (str_eqb_neq _ _)) in E by (apply not_eq_sym, str_eqb_neq, Hn).
    unfold py_in, obind in E. rewrite Hb in E. unfold style.
    destruct b; injection E as ->; reflexivity. }
  repeat split.
  - intros ->. unfold style. injection E as ->. reflexivity.
  - intros ->. unfold style. injection E as ->. reflexivity.
  - intros ->. unfold style. injection E as ->. reflexivity.
  - intros Ho Hs. apply contains_substring in Hs. exact (Hother Ho true Hs).
  - intros x ->. refine (Hother _ true _).
    + repeat split; discriminate.
    + apply contains_substring. exists [], (lit ": " ++ x). reflexivity.
  - intros Ho Hs. apply (Hother Ho false).
    destruct (contains (lit "Error") sentiment) eqn:C; [|reflexivity].
    apply contains_substring in C. contradiction.
Qed.

Lemma C7_rendering_witness :
  Frontend.styling_of (Frontend.analyze_button (post_label (lit "Error: x")) (lit "hello"))
  = Frontend.Error.
Proof.
  refine (proj1 (proj2 (proj2 (proj2 (proj2
            (C7_rendering (post_label (lit "Error: x")) (lit "hello")
               (ok_response (sentiment_dict (lit "Error: x")))
               [(lit "sentiment", JStr (lit "Error: x"))] (lit "Error: x")
               _ _ _ _))))) (lit "x") _).
  - vm_compute. discriminate.
  - reflexivity.
  - split; reflexivity.
  - reflexivity.
  - reflexivity.
Defined.

(** ** The selected model (lines 12 and 48-52) *)

(** C8: in every state the process can reach, by any sequence of
    requests against any answers of the outside, the selected model is
    one of "phi", "tinyllama", "gemma:2b", "llama2". *)
Theorem C8_selected_model_invariant (s : state) :
  reachable s ->
  In (MODEL_NAME s) [lit "phi"; lit "tinyllama"; lit "gemma:2b"; lit "llama2"].
Proof.
  induction 1 as [|s w r _ IH].
  - left. reflexivity.
  - rewrite handle_state. destruct r as [|text]; [exact IH|].
    pose proof (analyze_model w text s) as Hm. cbv zeta in Hm.
    destruct Hm as [-> | Hm]; [exact IH | exact Hm].
Qed.

Lemma C8_selected_model_invariant_witness :
  In (MODEL_NAME (snd (handle world_tiny (POST_analyze (lit "hi")) initial)))
     [lit "phi"; lit "tinyllama"; lit "gemma:2b"; lit "llama2"].
Proof.
  apply (C8_selected_model_invariant
           (snd (handle world_tiny (POST_analyze (lit "hi")) initial))).
  apply reach_step. apply reach_start.
Defined.

(** ** A probe answered with another status (lines 40-69) *)

(** C9: for a text that is not blank, when the probe is answered with a
    status other than 200, the handler goes on to the generation stage
    right after the probe: no name is scanned, the selected model is the
    one selected before, the generation endpoint is called with it, and
    the result is not the diagnostic telling to start Ollama. *)
Theorem C9_probe_status_not_200 (w : world) (text : str) (s : state)
    (check_response : response) :
  strip text <> [] ->
  http_get w tags_url 3 = Ret check_response ->
  status_code check_response <> 200%Z ->
  let r := analyze_sentiment w text s in
  r = generate w (prompt_of text) (record (HttpGet tags_url 3) s)
  /\ fst r <> Ret (sentiment_dict not_running)
  /\ MODEL_NAME (snd r) = MODEL_NAME s
  /\ exists rest,
       calls (snd r)
       = calls s ++ HttpGet tags_url 3
           :: HttpPost generate_url (generate_payload (MODEL_NAME s) (prompt_of text)) 15
           :: rest.
Proof.
  intros Hne Hget Hst r.
  assert (Hr : r = generate w (prompt_of text) (record (HttpGet tags_url 3) s)).
  { unfold r. rewrite analyze_run by assumption. rewrite probe_run. cbv zeta.
    rewrite Hget. apply Z.eqb_neq in Hst. rewrite Hst. reflexivity. }
  split; [exact Hr|]. rewrite Hr.
  destruct (generate_run w (prompt_of text) (record (HttpGet tags_url 3) s))
    as (label & rest & -> & Hl).
  split; [|split].
  - simpl. intros E. apply Hl. now injection E.
  - reflexivity.
  - exists rest. simpl. now rewrite <- app_assoc.
Qed.

Lemma C9_probe_status_not_200_witness :
  analyze_sentiment world_503 (lit "great") initial
  = generate world_503 (prompt_of (lit "great")) (record (HttpGet tags_url 3) initial)
  /\ MODEL_NAME (snd (analyze_sentiment world_503 (lit "great") initial)) = lit "phi".
Proof.
  destruct (C9_probe_status_not_200 world_503 (lit "great") initial unavailable)
    as (Hr & _ & Hm & _).
  - vm_compute. discriminate.
  - reflexivity.
  - vm_compute. discriminate.
  - split; [exact Hr | exact Hm].
Defined.

(** ** A body without the field (lines 54-65) *)

(** C10: when the 200 answer is a dictionary without the key
    "sentiment", the client takes the default "Error" and displays it in
    an error box; nothing is raised. *)
Theorem C10_missing_sentiment (post : str -> dict -> Z -> outcome response)
    (text_input : str) (res : response) (body : dict) :
  strip text_input <> [] -> answered post text_input res -> ok_with res body ->
  dict_lookup (lit "sentiment") body = None ->
  Frontend.show_response res = Ret (Frontend.st_error [Frontend.Field (JStr (lit "Error"))])
  /\ Frontend.analyze_button post text_input
     = Frontend.st_error [Frontend.Field (JStr (lit "Error"))]
  /\ Frontend.styling_of (Frontend.analyze_button post text_input) = Frontend.Error.
Proof.
  intros Hne Hpost [Hst Hbody] Hlook.
  assert (Hshow : Frontend.show_response res
                  = Ret (Frontend.st_error [Frontend.Field (JStr (lit "Error"))])).
  { unfold Frontend.show_response. rewrite Hst, Hbody.
    change (200 =? 200)%Z with true. cbv beta iota delta [obind py_get].
    rewrite Hlook. reflexivity. }
  assert (Hbutton : Frontend.analyze_button post text_input
                    = Frontend.st_error [Frontend.Field (JStr (lit "Error"))]).
  { unfold Frontend.analyze_button. destruct (strip text_input); [contradiction|].
    unfold answered in Hpost. rewrite Hpost. unfold obind at 1. now rewrite Hshow. }
  split; [exact Hshow | split; [exact Hbutton | now rewrite Hbutton]].
Qed.

Lemma C10_missing_sentiment_witness :
  Frontend.analyze_button post_empty_body (lit "hello")
  = Frontend.st_error [Frontend.Field (JStr (lit "Error"))].
Proof.
  refine (proj1 (proj2
            (C10_missing_sentiment post_empty_body (lit "hello")
               (ok_response (JDict [])) [] _ _ _ _))).
  - vm_compute. discriminate.
  - reflexivity.
  - split; reflexivity.
  - reflexivity.
Defined.

(* ================================================================== *)
(** * Further facts: the clauses of the generation stage               *)
(* ================================================================== *)

Lemma connection_is_request (e : exn) :
  is_ConnectionError e = true -> is_RequestException e = true.
Proof. destruct e as [k msg| | | | |]; simpl; try discriminate. reflexivity. Qed.

(** The generation stage is its attempt, followed on a raise by the
    clause that accepts the exception. *)
Lemma generate_cases (w : world) (prompt : str) (s : state) :
  generate w prompt s =
  let s1 := record (HttpPost generate_url (generate_payload (MODEL_NAME s) prompt) 15) s in
  match generation_attempt w (MODEL_NAME s) prompt with
  | Ret d => (Ret d, s1)
  | Raise e => dispatch (generate_clauses w) e s1
  end.
Proof.
  unfold generate, try_except, generate_body, generation_attempt.
  unfold bind, read_MODEL_NAME, requests_post, lift, obind. cbv zeta.
  destruct (http_post w generate_url (generate_payload (MODEL_NAME s) prompt) 15)
    as [response|e]; [|reflexivity].
  destruct (raise_for_status response) as [[]|e]; [|reflexivity].
  destruct (json_body response) as [result|e]; [|reflexivity].
  destruct (extract_sentiment result) as [d|e]; reflexivity.
Qed.

Lemma clause_connection (w : world) (e : exn) (s : state) :
  is_ConnectionError e = true ->
  dispatch (generate_clauses w) e s
  = (Ret (sentiment_dict
            (lit "Error: Cannot connect to Ollama. Run 'ollama serve' in a terminal")), s).
Proof. intros H. unfold generate_clauses, dispatch. now rewrite H. Qed.

Lemma clause_unexpected (w : world) (e : exn) (s : state) :
  is_RequestException e = false ->
  dispatch (generate_clauses w) e s
  = (Ret (sentiment_dict (lit "Unexpected error occurred")), s).
Proof.
  intros H. unfold generate_clauses, dispatch.
  destruct (is_ConnectionError e) eqn:C.
  - apply connection_is_request in C. congruence.
  - now rewrite H.
Qed.

Lemma clause_request (w : world) (e : exn) (s : state) :
  is_ConnectionError e = false -> is_RequestException e = true ->
  dispatch (generate_clauses w) e s =
  if contains (lit "model not found") (lower (exn_str e)) then
    (Ret (sentiment_dict
            match popen w [lit "ollama"; lit "pull"; MODEL_NAME s] with
            | Ret _ =>
                lit "Model " ++ MODEL_NAME s
                ++ lit " not found. Attempting to download it now. Please try again in a minute."
            | Raise _ =>
                lit "Error: Model not found. Run 'ollama pull " ++ MODEL_NAME s
                ++ lit "' in a terminal"
            end),
     record (Popen [lit "ollama"; lit "pull"; MODEL_NAME s]) s)
  else (Ret (sentiment_dict (lit "Error connecting to Ollama API")), s).
Proof.
  intros C R. unfold generate_clauses, dispatch. rewrite C, R.
  unfold on_request_exception.
  destruct (contains (lit "model not found") (lower (exn_str e))); [|reflexivity].
  unfold try_except, bind, read_MODEL_NAME, subprocess_Popen, ret.
  destruct (popen w [lit "ollama"; lit "pull"; MODEL_NAME s]) as [[]|e']; reflexivity.
Qed.

(** When the probe falls through, the handler is the generation stage
    run in the state the probe left. *)
Lemma analyze_after_probe (w : world) (text : str) (s s1 : state) :
  strip text <> [] -> probe w s = (Ret tt, s1) ->
  analyze_sentiment w text s = generate w (prompt_of text) s1.
Proof. intros Hne Hp. rewrite analyze_run by assumption. now rewrite Hp. Qed.

(** ** Lowering and the search for an ASCII needle *)

Lemma lower_app (a b : str) : lower (a ++ b) = lower a ++ lower b.
Proof. unfold lower. apply flat_map_app. Qed.

Lemma lower_fold (m : str) :
  Forall (fun n => (n < 128)%N) (map ascii_fold m) -> lower m = map ascii_fold m.
Proof.
  induction m as [|c m IH]; intros H; [reflexivity|].
  simpl in H. inversion H as [|? ? Hc Hm]; subst.
  change (lower (c :: m)) with (lower_cp c ++ lower m). rewrite (IH Hm).
  simpl. f_equal. revert Hc. unfold ascii_fold, lower_cp.
  destruct (is_ascii_upper c); [reflexivity|]. intros Hc.
  destruct (c =? 0x130)%N eqn:E1; [apply N.eqb_eq in E1; lia|].
  destruct (c =? 0x212A)%N eqn:E2; [apply N.eqb_eq in E2; lia|]. reflexivity.
Qed.

Lemma startswith_lower (needle s : str) :
  simple_needle needle -> startswith needle (lower s) = true ->
  exists m post, s = m ++ post /\ map ascii_fold m = needle.
Proof.
  intros Hn. revert s. induction Hn as [|n needle (Hlt & Hi & Hk) _ IH]; intros s H.
  - exists [], s. auto.
  - destruct s as [|c s]; [discriminate|].
    change (lower (c :: s)) with (lower_cp c ++ lower s) in H.
    assert (Hc : lower_cp c = [ascii_fold c] /\ n = ascii_fold c
                 /\ startswith needle (lower s) = true).
    { revert H. unfold lower_cp, ascii_fold.
      destruct (is_ascii_upper c).
      - simpl. intros H. apply andb_true_iff in H as [E H]. apply N.eqb_eq in E. auto.
      - destruct (c =? 0x130)%N.
        { simpl. intros H. apply andb_true_iff in H as [E _]. apply N.eqb_eq in E.
          contradiction. }
        destruct (c =? 0x212A)%N.
        { simpl. intros H. apply andb_true_iff in H as [E _]. apply N.eqb_eq in E.
          contradiction. }
        simpl. intros H. apply andb_true_iff in H as [E H]. apply N.eqb_eq in E. auto. }
    destruct Hc as (_ & -> & Hs). destruct (IH s Hs) as (m & post & -> & <-).
    exists (c :: m), post. auto.
Qed.

Lemma contains_lower (needle s : str) :
  simple_needle needle -> needle <> [] ->
  contains needle (lower s) = true -> mentions needle s.
Proof.
  intros Hn Hne. induction s as [|c s IH]; intros H.
  - simpl in H. rewrite orb_false_r in H.
    destruct needle; [contradiction | discriminate].
  - assert (Hc : startswith needle (lower (c :: s)) = true
                 \/ contains needle (lower s) = true).
    { change (lower (c :: s)) with (lower_cp c ++ lower s) in H |- *.
      destruct needle as [|n needle]; [contradiction|].
      inversion Hn as [|? ? (Hlt & Hi & Hk) _]; subst.
      revert H. unfold lower_cp.
      destruct (is_ascii_upper c);
        [|destruct (c =? 0x130)%N; [|destruct (c =? 0x212A)%N]];
        cbn [app contains]; intros H;
        repeat (apply orb_true_iff in H as [H | H]); auto.
      - exfalso. cbn [startswith] in H. apply andb_true_iff in H as [E _].
        apply N.eqb_eq in E. lia. }
    destruct Hc as [Hs | Hr].
    + destruct (startswith_lower needle (c :: s) Hn Hs) as (m & post & E & Hm).
      exists [], m, post. auto.
    + destruct (IH Hr) as (pre & m & post & -> & Hm).
      exists (c :: pre), m, post. auto.
Qed.

Lemma mentions_contains (needle s : str) :
  Forall (fun n => (n < 128)%N) needle ->
  mentions needle s -> contains needle (lower s) = true.
Proof.
  intros Hn (pre & m & post & -> & Hm). apply contains_substring.
  exists (lower pre), (lower post). rewrite !lower_app.
  rewrite (lower_fold m) by (rewrite Hm; exact Hn). now rewrite Hm.
Qed.

(** The test of line 97, on the text of the exception. *)
Lemma model_not_found_test (msg : str) :
  contains (lit "model not found") (lower msg) = true
  <-> mentions (lit "model not found") msg.
Proof.
  split.
  - apply contains_lower; [|discriminate].
    repeat constructor; try discriminate.
  - apply mentions_contains. repeat constructor.
Qed.

(* ================================================================== *)
(** * Further facts: one request, call by call                         *)
(* ================================================================== *)

(** The probe makes its one call, and leaves the model [selection]
    computes. *)
Lemma probe_state (w : world) (s : state) :
  snd (probe w s)
  = {| MODEL_NAME := selection w (MODEL_NAME s); calls := calls s ++ [the_probe] |}.
Proof.
  rewrite probe_run. unfold selection. cbv zeta.
  destruct (http_get w tags_url 3) as [check|e]; [|reflexivity].
  destruct (status_code check =? 200)%Z; [|reflexivity].
  destruct (json_body check) as [body|e]; [|reflexivity].
  destruct (available_names body) as [names|e]; [|reflexivity].
  rewrite select_first_run. reflexivity.
Qed.

(** The state a clause of the generation stage leaves. *)
Lemma clauses_state (w : world) (e : exn) (s : state) :
  snd (dispatch (generate_clauses w) e s) =
  if negb (is_ConnectionError e) && is_RequestException e
     && contains (lit "model not found") (lower (exn_str e))
  then record (the_pull (MODEL_NAME s)) s
  else s.
Proof.
  destruct (is_ConnectionError e) eqn:C.
  - now rewrite clause_connection.
  - destruct (is_RequestException e) eqn:R.
    + rewrite clause_request by assumption. simpl.
      now destruct (contains (lit "model not found") (lower (exn_str e))).
    + now rewrite clause_unexpected.
Qed.

(** The state the generation stage leaves. *)
Lemma generate_state (w : world) (prompt : str) (s : state) :
  snd (generate w prompt s) =
  let s1 := record (HttpPost generate_url (generate_payload (MODEL_NAME s) prompt) 15) s in
  match generation_attempt w (MODEL_NAME s) prompt with
  | Ret _ => s1
  | Raise e =>
      if negb (is_ConnectionError e) && is_RequestException e
         && contains (lit "model not found") (lower (exn_str e))
      then record (the_pull (MODEL_NAME s)) s1
      else s1
  end.
Proof.
  rewrite generate_cases. cbv zeta.
  destruct (generation_attempt w (MODEL_NAME s) prompt) as [d|e]; [reflexivity|].
  now rewrite clauses_state.
Qed.

Lemma analyze_selection (w : world) (text : str) (s : state) :
  strip text <> [] ->
  MODEL_NAME (snd (analyze_sentiment w text s)) = selection w (MODEL_NAME s).
Proof.
  intros Hne. rewrite analyze_run by assumption.
  pose proof (probe_state w s) as Hp.
  destruct (probe w s) as [[[]|e] s1]; simpl in Hp; subst s1; [|reflexivity].
  rewrite generate_state. cbv zeta.
  destruct (generation_attempt _ _ _) as [d|e]; [reflexivity|].
  now destruct (negb _ && _ && _).
Qed.

Lemma selection_idempotent (w : world) (m : str) :
  selection w (selection w m) = selection w m.
Proof.
  unfold selection.
  destruct (http_get w tags_url 3) as [check|e]; [|reflexivity].
  destruct (status_code check =? 200)%Z; [|reflexivity].
  destruct (json_body check) as [body|e]; [|reflexivity].
  destruct (available_names body) as [names|e]; [|reflexivity].
  now destruct (find _ candidates).
Qed.

(** ** The calls of one request *)

(** X1: a request makes no call at all, or the probe alone, or the probe
    and one POST to the generation endpoint, or these two and one launch
    of "ollama pull"; always in this order, and the POST and the launch
    name the model the request leaves selected. *)
Theorem X1_call_sequence (w : world) (text : str) (s : state) :
  let s' := snd (analyze_sentiment w text s) in
  let m := MODEL_NAME s' in
  calls s' = calls s
  \/ calls s' = calls s ++ [the_probe]
  \/ calls s' = calls s ++ [the_probe; the_post m text]
  \/ calls s' = calls s ++ [the_probe; the_post m text; the_pull m].
Proof.
  cbv zeta. destruct (strip text) as [|c t] eqn:Hs.
  - left. unfold analyze_sentiment. now rewrite Hs.
  - right. assert (Hne : strip text <> []) by (rewrite Hs; discriminate).
    rewrite (analyze_selection w text s Hne).
    rewrite analyze_run by assumption.
    pose proof (probe_state w s) as Hp.
    destruct (probe w s) as [[[]|e] s1]; simpl in Hp; subst s1; [|left; reflexivity].
    right. rewrite generate_state. cbv zeta. cbn [MODEL_NAME].
    destruct (generation_attempt _ _ _) as [d|e].
    + left. simpl. now rewrite <- app_assoc.
    + destruct (negb _ && _ && _).
      * right. simpl. now rewrite <- !app_assoc.
      * left. simpl. now rewrite <- app_assoc.
Qed.

(** X2: when the tags endpoint answers 200 but its body does not decode,
    or does not yield a name for every model it lists, the handler
    reports that Ollama is not running; the probe is its only call and
    the selected model stays. *)
Theorem X2_probe_unreadable (w : world) (text : str) (s : state)
    (check_response : response) :
  strip text <> [] ->
  http_get w tags_url 3 = Ret check_response ->
  status_code check_response = 200%Z ->
  (exists e, json_body check_response = Raise e)
  \/ (exists body e, json_body check_response = Ret body
                     /\ available_names body = Raise e) ->
  analyze_sentiment w text s
  = (Ret (sentiment_dict not_running),
     {| MODEL_NAME := MODEL_NAME s; calls := calls s ++ [the_probe] |}).
Proof.
  intros Hne Hget Hst Hbad. rewrite analyze_run by assumption.
  rewrite probe_run. cbv zeta. rewrite Hget, Hst.
  change (200 =? 200)%Z with true. cbv iota.
  destruct Hbad as [(e & ->) | (body & e & -> & ->)]; reflexivity.
Qed.

Lemma X2_probe_unreadable_witness :
  analyze_sentiment world_garbled (lit "fine") initial
  = (Ret (sentiment_dict not_running),
     {| MODEL_NAME := MODEL_NAME initial; calls := calls initial ++ [the_probe] |}).
Proof.
  apply (X2_probe_unreadable world_garbled (lit "fine") initial garbled).
  - vm_compute. discriminate.
  - reflexivity.
  - reflexivity.
  - left. exists OtherException. reflexivity.
Defined.

(** X3: a request changes the selected model only when the tags
    endpoint answered 200 with a list of names, and then only to one of
    the four candidates that the list holds. *)
Theorem X3_selection_change (w : world) (text : str) (s : state) :
  MODEL_NAME (snd (analyze_sentiment w text s)) <> MODEL_NAME s ->
  exists check_response body available,
    http_get w tags_url 3 = Ret check_response
    /\ status_code check_response = 200%Z
    /\ json_body check_response = Ret body
    /\ available_names body = Ret available
    /\ listed (MODEL_NAME (snd (analyze_sentiment w text s))) available
    /\ In (MODEL_NAME (snd (analyze_sentiment w text s)))
          [lit "phi"; lit "tinyllama"; lit "gemma:2b"; lit "llama2"].
Proof.
  destruct (strip text) as [|c t] eqn:Hs.
  { unfold analyze_sentiment. rewrite Hs. intros H. now contradiction H. }
  rewrite analyze_selection by (rewrite Hs; discriminate).
  unfold selection.
  destruct (http_get w tags_url 3) as [check|e] eqn:Hget; [|intros H; now contradiction H].
  destruct (status_code check =? 200)%Z eqn:Hst; [|intros H; now contradiction H].
  destruct (json_body check) as [body|e] eqn:Hbody; [|intros H; now contradiction H].
  destruct (available_names body) as [names|e] eqn:Hnames; [|intros H; now contradiction H].
  destruct (find _ candidates) as [o|] eqn:F; [|intros H; now contradiction H].
  intros _. apply find_some in F as [Hin Ho]. apply listed_existsb in Ho.
  apply Z.eqb_eq in Hst. exists check, body, names.
  repeat (split; [first [reflexivity | assumption]|]). exact Hin.
Qed.

Lemma X3_selection_change_witness :
  exists check_response body available,
    http_get world_tiny tags_url 3 = Ret check_response
    /\ status_code check_response = 200%Z
    /\ json_body check_response = Ret body
    /\ available_names body = Ret available
    /\ listed (MODEL_NAME (snd (analyze_sentiment world_tiny (lit "hi") initial))) available
    /\ In (MODEL_NAME (snd (analyze_sentiment world_tiny (lit "hi") initial)))
          [lit "phi"; lit "tinyllama"; lit "gemma:2b"; lit "llama2"].
Proof.
  apply (X3_selection_change world_tiny (lit "hi") initial).
  vm_compute. discriminate.
Defined.

(** X4: against the same answers of the outside, a second request
    selects the model the first one selected. *)
Theorem X4_selection_idempotent (w : world) (text1 text2 : str) (s : state) :
  strip text1 <> [] ->
  MODEL_NAME (snd (analyze_sentiment w text2 (snd (analyze_sentiment w text1 s))))
  = MODEL_NAME (snd (analyze_sentiment w text1 s)).
Proof.
  intros H1. destruct (strip text2) as [|c t] eqn:H2.
  - unfold analyze_sentiment at 1. now rewrite H2.
  - rewrite (analyze_selection w text2) by (rewrite H2; discriminate).
    rewrite (analyze_selection w text1) by assumption.
    apply selection_idempotent.
Qed.

Lemma X4_selection_idempotent_witness :
  MODEL_NAME (snd (analyze_sentiment world_tiny (lit "again")
                     (snd (analyze_sentiment world_tiny (lit "hi") initial))))
  = MODEL_NAME (snd (analyze_sentiment world_tiny (lit "hi") initial)).
Proof.
  apply (X4_selection_idempotent world_tiny (lit "hi") (lit "again") initial).
  vm_compute. discriminate.
Defined.

(** ** The generation stage, case by case *)

Lemma attempt_post_raises (w : world) (m prompt : str) (e : exn) :
  http_post w generate_url (generate_payload m prompt) 15 = Raise e ->
  generation_attempt w m prompt = Raise e.
Proof. intros H. unfold generation_attempt. now rewrite H. Qed.

Lemma attempt_decoded (w : world) (m prompt : str) (response : response) (result : json) :
  http_post w generate_url (generate_payload m prompt) 15 = Ret response ->
  raise_for_status response = Ret tt ->
  json_body response = Ret result ->
  generation_attempt w m prompt = extract_sentiment result.
Proof. intros H1 H2 H3. unfold generation_attempt. rewrite H1. simpl. now rewrite H2, H3. Qed.

(** X5: when the POST to the generation endpoint raises a
    ConnectionError, the handler returns the diagnostic telling to run
    "ollama serve"; the POST is the last call, no process is launched. *)
Theorem X5_generation_refused (w : world) (text : str) (s s1 : state) (e : exn) :
  strip text <> [] -> probe w s = (Ret tt, s1) ->
  http_post w generate_url (generate_payload (MODEL_NAME s1) (prompt_of text)) 15 = Raise e ->
  is_ConnectionError e = true ->
  analyze_sentiment w text s
  = (Ret (sentiment_dict
            (lit "Error: Cannot connect to Ollama. Run 'ollama serve' in a terminal")),
     record (the_post (MODEL_NAME s1) text) s1).
Proof.
  intros Hne Hp Hpost Hc. rewrite (analyze_after_probe w text s s1 Hne Hp).
  rewrite generate_cases. cbv zeta. rewrite (attempt_post_raises _ _ _ _ Hpost).
  now apply clause_connection.
Qed.

Lemma X5_generation_refused_witness :
  analyze_sentiment (world_post (Raise refused)) (lit "hello") initial
  = (Ret (sentiment_dict
            (lit "Error: Cannot connect to Ollama. Run 'ollama serve' in a terminal")),
     record (the_post (lit "phi") (lit "hello")) (record the_probe initial)).
Proof.
  apply (X5_generation_refused (world_post (Raise refused)) (lit "hello") initial
           (record the_probe initial) refused).
  - vm_compute. discriminate.
  - reflexivity.
  - reflexivity.
  - reflexivity.
Defined.

(** X6: when the generation attempt raises a RequestException, other
    than a ConnectionError, whose text mentions "model not found" in any
    letter case, the handler launches "ollama pull" for the selected
    model, once; it answers that the download was started, or, when the
    launch itself raises, how to pull the model by hand. *)
Theorem X6_model_not_found (w : world) (text : str) (s s1 : state) (e : exn) :
  strip text <> [] -> probe w s = (Ret tt, s1) ->
  generation_attempt w (MODEL_NAME s1) (prompt_of text) = Raise e ->
  is_RequestException e = true -> is_ConnectionError e = false ->
  mentions (lit "model not found") (exn_str e) ->
  let m := MODEL_NAME s1 in
  analyze_sentiment w text s
  = (Ret (sentiment_dict
            match popen w [lit "ollama"; lit "pull"; m] with
            | Ret _ =>
                lit "Model " ++ m
                ++ lit " not found. Attempting to download it now. Please try again in a minute."
            | Raise _ =>
                lit "Error: Model not found. Run 'ollama pull " ++ m ++ lit "' in a terminal"
            end),
     record (the_pull m) (record (the_post m text) s1)).
Proof.
  intros Hne Hp Ha Hr Hc Hm m. rewrite (analyze_after_probe w text s s1 Hne Hp).
  rewrite generate_cases. cbv zeta. rewrite Ha.
  rewrite clause_request by assumption.
  apply model_not_found_test in Hm. rewrite Hm. reflexivity.
Qed.

Lemma X6_model_not_found_witness :
  analyze_sentiment (world_post (Ret missing_model)) (lit "hello") initial
  = (Ret (sentiment_dict
            (lit "Model phi not found. Attempting to download it now. Please try again in a minute.")),
     record (the_pull (lit "phi"))
       (record (the_post (lit "phi") (lit "hello")) (record the_probe initial))).
Proof.
  apply (X6_model_not_found (world_post (Ret missing_model)) (lit "hello") initial
           (record the_probe initial)
           (RequestsError HTTPError
              (lit "404 Client Error: Model Not Found for url: http://localhost:11434/api/generate"))).
  - vm_compute. discriminate.
  - reflexivity.
  - reflexivity.
  - reflexivity.
  - reflexivity.
  - apply model_not_found_test. vm_compute. reflexivity.
Defined.

(** X7: when the generation attempt raises a RequestException, other
    than a ConnectionError, whose text does not mention "model not
    found", the handler answers "Error connecting to Ollama API" and
    launches nothing. *)
Theorem X7_request_error (w : world) (text : str) (s s1 : state) (e : exn) :
  strip text <> [] -> probe w s = (Ret tt, s1) ->
  generation_attempt w (MODEL_NAME s1) (prompt_of text) = Raise e ->
  is_RequestException e = true -> is_ConnectionError e = false ->
  ~ mentions (lit "model not found") (exn_str e) ->
  analyze_sentiment w text s
  = (Ret (sentiment_dict (lit "Error connecting to Ollama API")),
     record (the_post (MODEL_NAME s1) text) s1).
Proof.
  intros Hne Hp Ha Hr Hc Hm. rewrite (analyze_after_probe w text s s1 Hne Hp).
  rewrite generate_cases. cbv zeta. rewrite Ha.
  rewrite clause_request by assumption.
  destruct (contains (lit "model not found") (lower (exn_str e))) eqn:C; [|reflexivity].
  apply model_not_found_test in C. contradiction.
Qed.

Lemma X7_request_error_witness :
  analyze_sentiment (world_post (Ret server_error)) (lit "hello") initial
  = (Ret (sentiment_dict (lit "Error connecting to Ollama API")),
     record (the_post (lit "phi") (lit "hello")) (record the_probe initial)).
Proof.
  apply (X7_request_error (world_post (Ret server_error)) (lit "hello") initial
           (record the_probe initial)
           (RequestsError HTTPError
              (lit "500 Server Error: Internal Server Error for url: http://localhost:11434/api/generate"))).
  - vm_compute. discriminate.
  - reflexivity.
  - reflexivity.
  - reflexivity.
  - reflexivity.
  - intros H. apply model_not_found_test in H. vm_compute in H. discriminate H.
Defined.




(** X9: when the generation endpoint answers a dictionary whose
    "response" is not a string, the handler answers "Unexpected error
    occurred". *)
Theorem X9_reply_not_text (w : world) (text : str) (s s1 : state)
    (response : response) (d : dict) (v : json) :
  strip text <> [] -> probe w s = (Ret tt, s1) ->
  http_post w generate_url (generate_payload (MODEL_NAME s1) (prompt_of text)) 15
  = Ret response ->
  raise_for_status response = Ret tt ->
  json_body response = Ret (JDict d) ->
  dict_lookup (lit "response") d = Some v -> not_text v ->
  analyze_sentiment w text s
  = (Ret (sentiment_dict (lit "Unexpected error occurred")),
     record (the_post (MODEL_NAME s1) text) s1).
Proof.
  intros Hne Hp Hpost Hok Hbody Hlook Hv.
  rewrite (analyze_after_probe w text s s1 Hne Hp).
  rewrite generate_cases. cbv zeta.
  rewrite (attempt_decoded _ _ _ _ _ Hpost Hok Hbody).
  unfold extract_sentiment. cbv beta iota delta [obind py_in py_getitem].
  rewrite Hlook.
  destruct v as [| | | |t| |]; try (now apply clause_unexpected).
  now contradiction (Hv t).
Qed.

Lemma X9_reply_not_text_witness :
  analyze_sentiment
    (world_post (Ret (ok_response (JDict [(lit "response", JInt 7)])))) (lit "hello") initial
  = (Ret (sentiment_dict (lit "Unexpected error occurred")),
     record (the_post (lit "phi") (lit "hello")) (record the_probe initial)).
Proof.
  apply (X9_reply_not_text
           (world_post (Ret (ok_response (JDict [(lit "response", JInt 7)]))))
           (lit "hello") initial (record the_probe initial)
           (ok_response (JDict [(lit "response", JInt 7)]))
           [(lit "response", JInt 7)] (JInt 7)).
  - vm_compute. discriminate.
  - reflexivity.
  - reflexivity.
  - reflexivity.
  - reflexivity.
  - reflexivity.
  - intros t. discriminate.
Defined.

(** X10: when the generation endpoint answers a dictionary without the
    key "response", the handler answers "Error: Unable to analyze
    sentiment". *)
Theorem X10_reply_without_text (w : world) (text : str) (s s1 : state)
    (response : response) (d : dict) :
  strip text <> [] -> probe w s = (Ret tt, s1) ->
  http_post w generate_url (generate_payload (MODEL_NAME s1) (prompt_of text)) 15
  = Ret response ->
  raise_for_status response = Ret tt ->
  json_body response = Ret (JDict d) ->
  dict_lookup (lit "response") d = None ->
  analyze_sentiment w text s
  = (Ret (sentiment_dict (lit "Error: Unable to analyze sentiment")),
     record (the_post (MODEL_NAME s1) text) s1).
Proof.
  intros Hne Hp Hpost Hok Hbody Hlook.
  rewrite (analyze_after_probe w text s s1 Hne Hp).
  rewrite generate_cases. cbv zeta.
  rewrite (attempt_decoded _ _ _ _ _ Hpost Hok Hbody).
  unfold extract_sentiment. cbv beta iota delta [obind py_in].
  rewrite Hlook. reflexivity.
Qed.

Lemma X10_reply_without_text_witness :
  analyze_sentiment
    (world_post (Ret (ok_response (JDict [(lit "error", JStr (lit "busy"))]))))
    (lit "hello") initial
  = (Ret (sentiment_dict (lit "Error: Unable to analyze sentiment")),
     record (the_post (lit "phi") (lit "hello")) (record the_probe initial)).
Proof.
  apply (X10_reply_without_text
           (world_post (Ret (ok_response (JDict [(lit "error", JStr (lit "busy"))]))))
           (lit "hello") initial (record the_probe initial)
           (ok_response (JDict [(lit "error", JStr (lit "busy"))]))
           [(lit "error", JStr (lit "busy"))]).
  - vm_compute. discriminate.
  - reflexivity.
  - reflexivity.
  - reflexivity.
  - reflexivity.
  - reflexivity.
Defined.

(* ================================================================== *)
(** * Further facts: the label                                         *)
(* ================================================================== *)

Ltac expand_lits :=
  repeat match goal with
    | |- context [lit ?x] =>
        let v := eval vm_compute in (lit x) in change (lit x) with v
    end.

Ltac expand_lits_in H :=
  repeat match type of H with
    | context [lit ?x] =>
        let v := eval vm_compute in (lit x) in change (lit x) with v in H
    end.

(** Two plain pattern letters that match the same character are the
    same letter. *)
Lemma plain_agree (p q c : codepoint) :
  plain_letter p -> plain_letter q ->
  ci_match p c = true -> ci_match q c = true -> sre_lower p = sre_lower q.
Proof.
  intros Pp Pq Hp Hq.
  pose proof (cased_lower_range p (proj1 Pp)) as Rp.
  pose proof (cased_lower_range q (proj1 Pq)) as Rq.
  destruct (ci_match_plain p c Pp Hp) as [Ep | [Ep Up]];
    destruct (ci_match_plain q c Pq Hq) as [Eq | [Eq Uq]];
    try congruence; unfold is_ascii_upper in *; to_arith; lia.
Qed.

Ltac clash :=
  match goal with
  | H : ci_match ?p ?c = true |- context [ci_match ?p ?c] => rewrite H
  | H : ci_match ?p ?c = true |- context [ci_match ?q ?c] =>
      let E := fresh "Hq" in
      let X := fresh "Hpq" in
      destruct (ci_match q c) eqn:E;
      [ exfalso;
        assert (X : sre_lower p = sre_lower q)
          by (apply (plain_agree p q c); [plain_tac | plain_tac | exact H | exact E]);
        vm_compute in X; discriminate X
      | reflexivity ]
  end.

(** Where one keyword matches, no other does. *)
Lemma keyword_excludes (w w' m rest : str) :
  In w keywords -> In w' keywords -> w' <> w -> ci_word w m ->
  match_word w' (m ++ rest) = None.
Proof.
  intros Hw Hw' Hne Hm.
  destruct Hw as [<- | [<- | [<- | []]]];
    destruct Hw' as [<- | [<- | [<- | []]]];
    try (now contradiction Hne); clear Hne;
    expand_lits_in Hm; expand_lits;
    inversion Hm as [|p1 c1 w1 t1 H1 T1]; subst;
    inversion T1 as [|p2 c2 w2 t2 H2 T2]; subst;
    inversion T2 as [|p3 c3 w3 t3 H3 T3]; subst;
    cbn [match_word app]; repeat clash.
Qed.

(** The search answers with a match of the keyword that occurs first. *)
Lemma search_first (w s : str) (i : nat) :
  In w keywords -> occurs_at w i s ->
  (forall j w', (j < i)%nat -> In w' keywords -> ~ occurs_at w' j s) ->
  exists m rest, re_search keywords s = Some m /\ ci_word w m /\ skipn i s = m ++ rest.
Proof.
  intros Hw Hocc Hbefore.
  pose proof Hocc as Hocc'. apply occurs_at_skipn in Hocc' as (Hle & m0 & Hm0).
  destruct (re_search keywords s) as [m|] eqn:E.
  - apply re_search_some in E as (i0 & Hle0 & Halt & Hfirst).
    assert (Hi0 : (i0 <= i)%nat).
    { destruct (Nat.le_gt_cases i0 i) as [|Hlt]; [assumption|].
      specialize (Hfirst i Hlt). rewrite match_alt_none in Hfirst.
      rewrite (Hfirst w Hw) in Hm0. discriminate. }
    apply match_alt_sound in Halt as (w' & Hin & Hw').
    assert (Hocc0 : occurs_at w' i0 s) by (apply occurs_at_skipn; eauto).
    apply Nat.lt_eq_cases in Hi0 as [Hlt | ->].
    { exfalso. exact (Hbefore i0 w' Hlt Hin Hocc0). }
    destruct Hocc as (pre & mn & post & -> & <- & Hmn).
    rewrite skipn_length_app in Hw' |- *.
    assert (w' = w) as ->.
    { destruct (list_eq_dec N.eq_dec w' w) as [|Hne]; [assumption|].
      rewrite (keyword_excludes w w' mn post Hw Hin Hne Hmn) in Hw'. discriminate. }
    rewrite (match_word_complete w mn post Hmn) in Hw'. injection Hw' as <-.
    exists mn, post. auto.
  - exfalso. rewrite re_search_none in E. specialize (E i Hle).
    rewrite match_alt_none in E. rewrite (E w Hw) in Hm0. discriminate.
Qed.

(** An occurrence of a word of letters lies inside the stripped string. *)
Lemma occurs_at_strip (w reply : str) (i : nat) :
  Forall (fun p => sre_iscased p = true) w -> w <> [] -> occurs_at w i reply ->
  exists l r, reply = l ++ strip reply ++ r /\ (List.length l <= i)%nat
              /\ occurs_at w (i - List.length l) (strip reply).
Proof.
  intros Hc Hne (pre & m & post & -> & <- & Hm).
  assert (Hns : Forall (fun c => isspace c = false) m)
    by (eapply ci_word_no_space; eassumption).
  assert (Hmne : m <> []).
  { intros ->. inversion Hm. subst. contradiction. }
  rewrite (strip_around pre m post Hmne Hns).
  destruct (lstrip_split pre) as (l & El & _).
  destruct (rstrip_split post) as (r & Er & _).
  exists l, r. split; [|split].
  - rewrite El at 1. rewrite Er at 1. now repeat rewrite <- app_assoc.
  - rewrite El at 1. rewrite length_app. lia.
  - exists (lstrip pre), m, (rstrip post). split; [reflexivity|]. split; [|assumption].
    rewrite El at 2. rewrite length_app. lia.
Qed.

(** ** ASCII replies *)

Lemma ci_match_ascii (p c : codepoint) :
  sre_iscased p = true -> (c < 128)%N -> ci_match p c = true ->
  ascii_fold c = sre_lower p.
Proof.
  intros Hp Hc H. pose proof (cased_lower_range p Hp) as R.
  unfold ci_match in H. rewrite Hp in H. cbv zeta in H.
  revert H R. generalize (sre_lower p) as lo. intros lo H R.
  simpl in H. apply orb_true_iff in H as [H | H].
  - apply N.eqb_eq in H. revert H. unfold ascii_fold, sre_lower.
    destruct (is_ascii_upper c); [auto|].
    destruct (c =? 0x130)%N eqn:E1; [apply N.eqb_eq in E1; lia|].
    destruct (c =? 0x212A)%N eqn:E2; [apply N.eqb_eq in E2; lia|]. auto.
  - exfalso. assert (Hl : (sre_lower c < 160)%N).
    { unfold sre_lower. destruct (is_ascii_upper c); [lia|].
      destruct (c =? 0x130)%N; [lia|]. destruct (c =? 0x212A)%N; lia. }
    revert H. unfold sre_fixes.
    destruct (lo =? 0x69)%N; [|destruct (lo =? 0x73)%N]; simpl;
      try discriminate; rewrite orb_false_r; intros H; apply N.eqb_eq in H; lia.
Qed.

Lemma lower_cp_ascii (c : codepoint) : (c < 128)%N -> lower_cp c = [ascii_fold c].
Proof.
  intros Hc. unfold lower_cp, ascii_fold. destruct (is_ascii_upper c); [reflexivity|].
  destruct (c =? 0x130)%N eqn:E1; [apply N.eqb_eq in E1; lia|].
  destruct (c =? 0x212A)%N eqn:E2; [apply N.eqb_eq in E2; lia|]. reflexivity.
Qed.

Lemma title_cp_fold (c : codepoint) :
  (0x61 <= ascii_fold c <= 0x7A)%N -> title_cp c = [(ascii_fold c - 32)%N].
Proof.
  unfold title_cp, ascii_fold, is_ascii_lower, is_ascii_upper.
  intros H. split_tests; to_arith; try lia; try reflexivity. f_equal. lia.
Qed.

(** An ASCII match of a word of letters, capitalized, is the word with
    its first letter in upper case and the others in lower case. *)
Lemma capitalize_ascii (p : codepoint) (w m : str) :
  Forall (fun p => sre_iscased p = true) (p :: w) -> ascii_only m ->
  ci_word (p :: w) m ->
  capitalize m = (sre_lower p - 32)%N :: map sre_lower w.
Proof.
  intros Hc Ha Hm. inversion Hm as [|p' c w' t H1 Ht]; subst.
  inversion Hc as [|? ? Hp Hw]; subst. inversion Ha as [|? ? Hc1 Hat]; subst.
  simpl. rewrite title_cp_fold;
    rewrite (ci_match_ascii p c Hp Hc1 H1); [|now apply cased_lower_range].
  simpl. f_equal. clear - Hw Hat Ht.
  induction Ht as [|q d w t Hd _ IH]; [reflexivity|].
  inversion Hw; subst. inversion Hat; subst.
  change (lower (d :: t)) with (lower_cp d ++ lower t).
  rewrite lower_cp_ascii by assumption.
  rewrite (ci_match_ascii q d) by assumption. simpl. f_equal. now apply IH.
Qed.

Lemma capitalize_ascii_keyword (w m : str) :
  In w keywords -> ascii_only m -> ci_word w m -> capitalize m = w.
Proof.
  intros Hw Ha Hm. pose proof (keywords_cased w Hw) as Hc.
  destruct Hw as [<- | [<- | [<- | []]]].
  - change (lit "Positive") with (0x50%N :: lit "ositive") in Hc, Hm.
    now rewrite (capitalize_ascii _ _ m Hc Ha Hm).
  - change (lit "Negative") with (0x4E%N :: lit "egative") in Hc, Hm.
    now rewrite (capitalize_ascii _ _ m Hc Ha Hm).
  - change (lit "Neutral") with (0x4E%N :: lit "eutral") in Hc, Hm.
    now rewrite (capitalize_ascii _ _ m Hc Ha Hm).
Qed.

Lemma ascii_only_strip (s : str) : ascii_only s -> ascii_only (strip s).
Proof.
  intros H. destruct (strip_split s) as (l & r & E & _ & _).
  unfold ascii_only in *. rewrite E in H.
  apply Forall_app in H as [_ H]. now apply Forall_app in H as [H _].
Qed.

Lemma ascii_only_skipn (s m rest : str) (i : nat) :
  ascii_only s -> skipn i s = m ++ rest -> ascii_only m.
Proof.
  intros H E. unfold ascii_only in *. rewrite <- (firstn_skipn i s) in H.
  apply Forall_app in H as [_ H]. rewrite E in H. now apply Forall_app in H as [H _].
Qed.

(** X11: for a reply of ASCII characters, the label is the keyword that
    occurs first: when one of "Positive", "Negative", "Neutral" occurs, in
    any letter case, from index [i] on and none of the three occurs from
    an earlier index, the extraction step returns that keyword,
    capitalized. *)
Theorem X11_first_keyword_wins (result : json) (reply w : str) (i : nat) :
  carries result reply -> ascii_only reply ->
  In w [lit "Positive"; lit "Negative"; lit "Neutral"] ->
  occurs_at w i reply ->
  (forall j w', (j < i)%nat -> In w' [lit "Positive"; lit "Negative"; lit "Neutral"] ->
                ~ occurs_at w' j reply) ->
  extract_sentiment result = Ret (sentiment_dict w).
Proof.
  intros Hc Ha Hw Hocc Hbefore. rewrite (extract_carries _ _ Hc).
  assert (Hne : w <> []).
  { destruct Hw as [<- | [<- | [<- | []]]]; discriminate. }
  destruct (occurs_at_strip w reply i (keywords_cased w Hw) Hne Hocc)
    as (l & r & E & Hl & Hocc').
  destruct (search_first w (strip reply) (i - List.length l) Hw Hocc')
    as (m & rest & -> & Hm & Hskip).
  - intros j w' Hj Hw' Hj'. apply (Hbefore (List.length l + j)%nat w'); [lia | exact Hw' |].
    rewrite E. now apply occurs_at_embed.
  - rewrite (capitalize_ascii_keyword w m Hw); [reflexivity | | exact Hm].
    eapply ascii_only_skipn; [|exact Hskip]. now apply ascii_only_strip.
Qed.

Lemma X11_first_keyword_wins_witness :
  extract_sentiment (as_result reply_both) = Ret (sentiment_dict (lit "Positive")).
Proof.
  apply (X11_first_keyword_wins (as_result reply_both) reply_both (lit "Positive") 0).
  - eexists. split; reflexivity.
  - repeat constructor.
  - left. reflexivity.
  - apply occurs_at_skipn. split; [apply Nat.le_0_l | eexists; vm_compute; reflexivity].
  - intros j w' Hj. inversion Hj.
Defined.

(** ** The length of the label *)

Lemma length_lower (s : str) : (List.length (lower s) <= 2 * List.length s)%nat.
Proof.
  induction s as [|c s IH]; [simpl; lia|].
  change (lower (c :: s)) with (lower_cp c ++ lower s). rewrite length_app.
  assert (List.length (lower_cp c) <= 2)%nat.
  { unfold lower_cp. split_tests; simpl; lia. }
  simpl List.length. lia.
Qed.

Lemma length_capitalize (s : str) : (List.length (capitalize s) <= 2 * List.length s)%nat.
Proof.
  destruct s as [|c s]; [simpl; lia|].
  unfold capitalize. rewrite length_app. pose proof (length_lower s).
  assert (List.length (title_cp c) = 1)%nat.
  { unfold title_cp. now destruct (is_ascii_lower c). }
  simpl List.length. lia.
Qed.

(** X12: the label the extraction step returns has at most 50
    characters, whatever the decoded reply. *)
Theorem X12_label_length (result d : json) :
  extract_sentiment result = Ret d ->
  exists label, d = sentiment_dict label /\ (List.length label <= 50)%nat.
Proof.
  unfold extract_sentiment.
  destruct (py_in (lit "response") result) as [[|]|e]; simpl; try discriminate.
  - destruct (py_getitem result (lit "response")) as [reply|e]; simpl; try discriminate.
    destruct (py_strip reply) as [raw|e]; simpl; try discriminate.
    destruct (re_search keywords raw) as [m|] eqn:E; intros H; injection H as <-;
      eexists; (split; [reflexivity|]).
    + apply re_search_some in E as (i & _ & Halt & _).
      apply match_alt_sound in Halt as (w & Hin & Hw).
      apply match_word_sound in Hw as (rest & _ & Hw).
      pose proof (length_capitalize m) as Hl.
      apply Forall2_length in Hw.
      assert (List.length w <= 8)%nat.
      { destruct Hin as [<- | [<- | [<- | []]]]; vm_compute; lia. }
      lia.
    + pose proof (firstn_le_length 50 raw) as Hl. exact Hl.
  - intros H; injection H as <-. eexists. split; [reflexivity|]. vm_compute. lia.
Qed.

Lemma X12_label_length_witness :
  exists label,
    sentiment_dict (lit "ok") = sentiment_dict label /\ (List.length label <= 50)%nat.
Proof.
  apply (X12_label_length (as_result reply_padded) (sentiment_dict (lit "ok"))).
  reflexivity.
Defined.

(* ================================================================== *)
(** * Further facts: the health endpoint                               *)
(* ================================================================== *)

Lemma reachable_model (s : state) : reachable s -> In (MODEL_NAME s) candidates.
Proof.
  induction 1 as [|s w r _ IH]; [left; reflexivity|].
  rewrite handle_state. destruct r as [|text]; [exact IH|].
  pose proof (analyze_model w text s) as Hm. cbv zeta in Hm.
  destruct Hm as [-> | Hm]; [exact IH | exact Hm].
Qed.

(** X13: in every state the process can reach, GET / answers 200 with
    status "ok" and, as model, one of the four candidates; it makes no
    call and leaves the state as it is. *)
Theorem X13_health_check (w : world) (s : state) :
  reachable s ->
  exists model,
    handle w GET_root s
    = ({| reply_status := 200;
          reply_json := Some (JDict [(lit "status", JStr (lit "ok"));
                                     (lit "model", JStr model)]) |}, s)
    /\ In model [lit "phi"; lit "tinyllama"; lit "gemma:2b"; lit "llama2"].
Proof.
  intros Hr. pose proof (reachable_model s Hr) as Hm.
  exists (MODEL_NAME s). split; [|exact Hm].
  unfold handle, serve, health_check, bind, read_MODEL_NAME, ret.
  assert (He : str_encodable (MODEL_NAME s) = true).
  { destruct Hm as [<- | [<- | [<- | [<- | []]]]]; reflexivity. }
  cbn [encodable forallb fst snd]. rewrite He. reflexivity.
Qed.

Lemma X13_health_check_witness :
  exists model,
    handle world_down GET_root (snd (handle world_tiny (POST_analyze (lit "hi")) initial))
    = ({| reply_status := 200;
          reply_json := Some (JDict [(lit "status", JStr (lit "ok"));
                                     (lit "model", JStr model)]) |},
       snd (handle world_tiny (POST_analyze (lit "hi")) initial))
    /\ In model [lit "phi"; lit "tinyllama"; lit "gemma:2b"; lit "llama2"].
Proof.
  apply (X13_health_check world_down
           (snd (handle world_tiny (POST_analyze (lit "hi")) initial))).
  apply reach_step. apply reach_start.
Defined.

(* ================================================================== *)
(** * Further facts: the rest of the page                              *)
(* ================================================================== *)

(** X14: for an answer of the backend with a status other than 200, the
    indicator drawn when the page loads warns with that status, while
    the button "Check Backend" reports the backend as running. *)
Theorem X14_backend_checks_disagree (get : str -> outcome response) (response : response) :
  get Frontend.backend_url = Ret response -> status_code response <> 200%Z ->
  Frontend.backend_status get
  = Frontend.st_warning
      [Frontend.Text ([0x26A0; 0xFE0F]%N
                      ++ lit " Backend server responded with status code: ");
       Frontend.Field (JInt (status_code response))]
  /\ Frontend.check_backend get
     = Frontend.st_success [Frontend.Text ([0x2705%N] ++ lit " Backend is running")].
Proof.
  intros Hget Hst. unfold Frontend.backend_status, Frontend.check_backend.
  rewrite Hget. apply Z.eqb_neq in Hst. now rewrite Hst.
Qed.

Lemma X14_backend_checks_disagree_witness :
  Frontend.styling_of (Frontend.backend_status (get_answer (Ret teapot))) = Frontend.Warning
  /\ Frontend.styling_of (Frontend.check_backend (get_answer (Ret teapot))) = Frontend.Success.
Proof.
  destruct (X14_backend_checks_disagree (get_answer (Ret teapot)) teapot) as [H1 H2].
  - reflexivity.
  - discriminate.
  - rewrite H1, H2. split; reflexivity.
Defined.

(** X15: once an example is chosen in the select box, the text analysed
    is one of the three examples, whatever the text area holds; a choice
    that is neither "Positive example" nor "Negative example" gives the
    third; and the text is never blank. *)
Theorem X15_example_chosen (example_choice text_area : str) :
  example_choice <> [] ->
  let text_input := Frontend.text_input_of example_choice text_area in
  In text_input Frontend.examples
  /\ text_input = Frontend.text_input_of example_choice []
  /\ strip text_input <> []
  /\ (example_choice <> lit "Positive example" ->
      example_choice <> lit "Negative example" ->
      text_input = lit "The weather today is neither good nor bad, just average.").
Proof.
  intros Hne. cbv zeta. unfold Frontend.text_input_of.
  destruct example_choice as [|c t]; [contradiction|].
  destruct (str_eqb (c :: t) (lit "Positive example")) eqn:E1;
    [|destruct (str_eqb (c :: t) (lit "Negative example")) eqn:E2].
  - repeat split; try (vm_compute; discriminate).
    + left. reflexivity.
    + intros H. apply str_eqb_eq in E1. contradiction.
  - repeat split; try (vm_compute; discriminate).
    + right. left. reflexivity.
    + intros _ H. apply str_eqb_eq in E2. contradiction.
  - repeat split; try (vm_compute; discriminate).
    right. right. left. reflexivity.
Qed.

Lemma X15_example_chosen_witness :
  Frontend.text_input_of (lit "Neutral example") (lit "typed")
  = lit "The weather today is neither good nor bad, just average.".
Proof.
  refine (proj2 (proj2 (proj2
            (X15_example_chosen (lit "Neutral example") (lit "typed") _))) _ _);
    discriminate.
Defined.

(** ** The box of the Analyze button *)

Lemma str_eq_json_true (t : str) (v : json) : str_eq_json t v = true <-> v = JStr t.
Proof.
  destruct v; simpl; split; try discriminate.
  - intros H. apply str_eqb_eq in H. now subst.
  - intros H. injection H as ->. now apply str_eqb_eq.
Qed.

(** The styling of what [show_sentiment] displays. *)
Lemma show_sentiment_styling (v : json) (el : Frontend.element) :
  Frontend.show_sentiment v = Ret el ->
  (Frontend.styling_of el = Frontend.Success <-> v = JStr (lit "Positive"))
  /\ (Frontend.styling_of el = Frontend.Informational <-> v = JStr (lit "Neutral")).
Proof.
  unfold Frontend.show_sentiment.
  destruct (str_eq_json (lit "Positive") v) eqn:P.
  { intros H. injection H as <-. apply str_eq_json_true in P. subst v. simpl.
    split; split; try reflexivity; discriminate. }
  destruct (str_eq_json (lit "Negative") v) eqn:G.
  { intros H. injection H as <-. apply str_eq_json_true in G. subst v. simpl.
    split; split; discriminate. }
  destruct (str_eq_json (lit "Neutral") v) eqn:U.
  { intros H. injection H as <-. apply str_eq_json_true in U. subst v. simpl.
    split; split; try reflexivity; discriminate. }
  assert (Hp : v <> JStr (lit "Positive")).
  { intros E. apply str_eq_json_true in E. congruence. }
  assert (Hu : v <> JStr (lit "Neutral")).
  { intros E. apply str_eq_json_true in E. congruence. }
  destruct (py_in (lit "Error") v) as [[|]|e]; simpl; try discriminate;
    intros H; injection H as <-; simpl; split; split;
    try discriminate; intros E; contradiction.
Qed.

(** What the button displays, stage by stage. *)
Lemma button_cases (post : str -> dict -> Z -> outcome response) (text_input : str) :
  strip text_input <> [] ->
  Frontend.analyze_button post text_input =
  match post Frontend.analyze_url [(lit "text", JStr text_input)] 30%Z with
  | Ret res =>
      match Frontend.show_response res with
      | Ret el => el
      | Raise e =>
          if is_ConnectionError e
          then Frontend.st_error
                 [Frontend.Text (lit "Failed to connect to the backend server. Is it running?")]
          else Frontend.st_error [Frontend.Text (lit "An error occurred: "); Frontend.ExnText e]
      end
  | Raise e =>
      if is_ConnectionError e
      then Frontend.st_error
             [Frontend.Text (lit "Failed to connect to the backend server. Is it running?")]
      else Frontend.st_error [Frontend.Text (lit "An error occurred: "); Frontend.ExnText e]
  end.
Proof.
  intros Hne. unfold Frontend.analyze_button.
  destruct (strip text_input); [contradiction|].
  destruct (post _ _ _) as [res|e]; reflexivity.
Qed.

(** X16: the Analyze button shows the success box only when the backend
    answered 200 with exactly "Positive" under "sentiment", and the
    informational box only when it answered 200 with exactly "Neutral". *)
Theorem X16_success_and_info (post : str -> dict -> Z -> outcome response) (text_input : str) :
  let style := Frontend.styling_of (Frontend.analyze_button post text_input) in
  let answered_with label :=
    strip text_input <> []
    /\ exists res body, answered post text_input res /\ ok_with res body
                        /\ dict_lookup (lit "sentiment") body = Some (JStr label) in
  (style = Frontend.Success <-> answered_with (lit "Positive"))
  /\ (style = Frontend.Informational <-> answered_with (lit "Neutral")).
Proof.
  cbv zeta.
  assert (Hback : forall label,
             label = lit "Positive" \/ label = lit "Neutral" ->
             strip text_input <> [] ->
             (exists res body, answered post text_input res /\ ok_with res body
                /\ dict_lookup (lit "sentiment") body = Some (JStr label)) ->
             Ret (Frontend.analyze_button post text_input)
             = Frontend.show_sentiment (JStr label)).
  { intros label _ Hne (res & body & Hp & Hok & Hl).
    exact (button_shows post text_input res body label Hne Hp Hok Hl). }
  assert (Hforth : forall st label,
             (st = Frontend.Success \/ st = Frontend.Informational) ->
             (forall v el, Frontend.show_sentiment v = Ret el ->
                           Frontend.styling_of el = st -> v = JStr label) ->
             Frontend.styling_of (Frontend.analyze_button post text_input) = st ->
             strip text_input <> []
             /\ exists res body, answered post text_input res /\ ok_with res body
                  /\ dict_lookup (lit "sentiment") body = Some (JStr label)).
  { intros st label Hst Hv H.
    destruct (strip text_input) as [|c t] eqn:Hs.
    { exfalso. unfold Frontend.analyze_button in H. rewrite Hs in H. simpl in H.
      destruct Hst; congruence. }
    assert (Hne : strip text_input <> []) by (rewrite Hs; discriminate).
    split; [discriminate|]. rewrite <- Hs in *. clear Hs.
    rewrite (button_cases post text_input Hne) in H.
    destruct (post Frontend.analyze_url [(lit "text", JStr text_input)] 30%Z)
      as [res|e] eqn:Hp.
    2:{ exfalso. destruct (is_ConnectionError e); simpl in H; destruct Hst; congruence. }
    unfold Frontend.show_response in H.
    destruct (status_code res =? 200)%Z eqn:Hc.
    2:{ exfalso. simpl in H. destruct Hst; congruence. }
    destruct (json_body res) as [body|e] eqn:Hb.
    2:{ exfalso. simpl in H. destruct (is_ConnectionError e); simpl in H;
        destruct Hst; congruence. }
    cbv beta iota delta [obind] in H.
    destruct body as [| | | | | |d];
      try (exfalso; simpl in H; destruct Hst; congruence).
    cbv beta iota delta [py_get] in H.
    destruct (dict_lookup (lit "sentiment") d) as [v|] eqn:Hl.
    - destruct (Frontend.show_sentiment v) as [el|e] eqn:Hshow.
      + rewrite (Hv v el Hshow H) in Hl. apply Z.eqb_eq in Hc.
        exists res, d. repeat split; assumption.
      + exfalso. destruct (is_ConnectionError e); simpl in H; destruct Hst; congruence.
    - exfalso. simpl in H. destruct Hst; congruence. }
  split; split.
  - apply (Hforth Frontend.Success (lit "Positive")); [auto|].
    intros v el Hs Hst. now apply (show_sentiment_styling v el Hs).
  - intros [Hne Hex]. pose proof (Hback _ (or_introl eq_refl) Hne Hex) as E.
    symmetry in E. now apply (show_sentiment_styling _ _ E).
  - apply (Hforth Frontend.Informational (lit "Neutral")); [auto|].
    intros v el Hs Hst. now apply (show_sentiment_styling v el Hs).
  - intros [Hne Hex]. pose proof (Hback _ (or_intror eq_refl) Hne Hex) as E.
    symmetry in E. now apply (show_sentiment_styling _ _ E).
Qed.

(** X17: for a text that is not blank, every failure of the exchange
    ends in an error box: an exception of the POST, an answer with a
    status other than 200 (shown with that status), and a 200 whose body
    does not decode to a dictionary. *)
Theorem X17_failures_are_errors (post : str -> dict -> Z -> outcome response)
    (text_input : str) :
  strip text_input <> [] ->
  let shown := Frontend.analyze_button post text_input in
  (forall e, post Frontend.analyze_url [(lit "text", JStr text_input)] 30%Z = Raise e ->
             Frontend.styling_of shown = Frontend.Error)
  /\ (forall res, answered post text_input res -> status_code res <> 200%Z ->
        shown = Frontend.st_error
                  [Frontend.Text (lit "Error: Received status code ");
                   Frontend.Field (JInt (status_code res))])
  /\ (forall res, answered post text_input res -> status_code res = 200%Z ->
        (forall d, json_body res <> Ret (JDict d)) ->
        Frontend.styling_of shown = Frontend.Error).
Proof.
  intros Hne. cbv zeta. rewrite (button_cases post text_input Hne).
  split; [|split].
  - intros e ->. now destruct (is_ConnectionError e).
  - intros res Hp Hst. unfold answered in Hp. rewrite Hp.
    unfold Frontend.show_response. apply Z.eqb_neq in Hst. now rewrite Hst.
  - intros res Hp Hst Hd. unfold answered in Hp. rewrite Hp.
    unfold Frontend.show_response. rewrite Hst. change (200 =? 200)%Z with true.
    destruct (json_body res) as [body|e].
    + destruct body as [| | | | | |d]; try reflexivity.
      now contradiction (Hd d).
    + simpl. now destruct (is_ConnectionError e).
Qed.

Lemma X17_failures_are_errors_witness :
  Frontend.analyze_button (fun _ _ _ => Ret teapot) (lit "hello")
  = Frontend.st_error
      [Frontend.Text (lit "Error: Received status code "); Frontend.Field (JInt 418)].
Proof.
  refine (proj1 (proj2
            (X17_failures_are_errors (fun _ _ _ => Ret teapot) (lit "hello") _))
            teapot _ _).
  - vm_compute. discriminate.
  - reflexivity.
  - discriminate.
Defined.

(** ** The button "Check Ollama" *)

Lemma named_getitem (m v : json) : named m v -> py_getitem m (lit "name") = Ret v.
Proof. intros (d & -> & H). simpl. now rewrite H. Qed.

(** The scan stops at the first entry named like the client's model. *)
Lemma any_named_hit (before rest : list json) (hit : json) :
  Forall (fun m => exists v, named m v /\ v <> JStr Frontend.MODEL_NAME) before ->
  named hit (JStr Frontend.MODEL_NAME) ->
  Frontend.any_named (before ++ hit :: rest) = Ret true.
Proof.
  intros Hb Hh.
  induction Hb as [|m before (v & Hm & Hv) _ IH]; cbn [app Frontend.any_named].
  - rewrite (named_getitem _ _ Hh). cbn [obind].
    now rewrite (proj2 (str_eq_json_true _ _) eq_refl).
  - rewrite (named_getitem _ _ Hm). cbn [obind].
    destruct (str_eq_json Frontend.MODEL_NAME v) eqn:E; [|exact IH].
    apply str_eq_json_true in E. contradiction.
Qed.

Lemma any_named_none (names : list str) :
  ~ In Frontend.MODEL_NAME names ->
  Frontend.any_named (map (fun n => JDict [(lit "name", JStr n)]) names) = Ret false.
Proof.
  induction names as [|n names IH]; intros H; [reflexivity|].
  simpl map. cbn [Frontend.any_named py_getitem dict_lookup obind].
  change (str_eqb (lit "name") (lit "name")) with true. cbv iota. cbn [obind].
  destruct (str_eq_json Frontend.MODEL_NAME (JStr n)) eqn:E.
  - apply str_eq_json_true in E. injection E as ->. exfalso. apply H. now left.
  - apply IH. intros Hin. apply H. now right.
Qed.

(** A comprehension raises as soon as one of its elements does. *)
Lemma comprehension_raises {A B} (f : A -> outcome B) (l : list A) (x : A) (e : exn) :
  In x l -> f x = Raise e -> exists e', comprehension f l = Raise e'.
Proof.
  induction l as [|y l IH]; intros Hin Hx; [contradiction|]. simpl.
  destruct (f y) as [b|e1] eqn:Hy; simpl; [|eauto].
  destruct Hin as [-> | Hin]; [congruence|].
  destruct (IH Hin Hx) as (e' & ->). simpl. eauto.
Qed.

(** X18: whatever the status of the answer, "Check Ollama" reports
    Ollama as running; and it reports the client's model as available as
    soon as the entries of "models" up to one named "tinyllama" are
    dictionaries with other names, whatever follows that entry. *)
Theorem X18_ollama_available (get : str -> outcome response) (resp : response)
    (body : dict) (before rest : list json) (hit : json) :
  get Frontend.ollama_tags_url = Ret resp ->
  json_body resp = Ret (JDict body) ->
  dict_lookup (lit "models") body = Some (JList (before ++ hit :: rest)) ->
  Forall (fun m => exists v, named m v /\ v <> JStr (lit "tinyllama")) before ->
  named hit (JStr (lit "tinyllama")) ->
  Frontend.check_ollama get
  = [Frontend.st_success [Frontend.Text ([0x2705%N] ++ lit " Ollama is running")];
     Frontend.st_success [Frontend.Text ([0x2705%N] ++ lit " tinyllama model is available")]].
Proof.
  intros Hget Hbody Hl Hb Hh. unfold Frontend.check_ollama, Frontend.model_availability.
  rewrite Hget, Hbody. cbv beta iota delta [obind py_get]. rewrite Hl.
  cbv beta iota delta [py_iter]. now rewrite (any_named_hit before rest hit Hb Hh).
Qed.

Lemma X18_ollama_available_witness :
  Frontend.check_ollama
    (get_answer (Ret {| status_code := 500; raise_for_status := Ret tt;
                        json_body := Ret tags_then_nameless |}))
  = [Frontend.st_success [Frontend.Text ([0x2705%N] ++ lit " Ollama is running")];
     Frontend.st_success [Frontend.Text ([0x2705%N] ++ lit " tinyllama model is available")]].
Proof.
  apply (X18_ollama_available _
           {| status_code := 500; raise_for_status := Ret tt;
              json_body := Ret tags_then_nameless |}
           [(lit "models", JList [JDict [(lit "name", JStr (lit "tinyllama"))]; nameless])]
           [] [nameless] (JDict [(lit "name", JStr (lit "tinyllama"))])).
  - reflexivity.
  - reflexivity.
  - reflexivity.
  - constructor.
  - eexists. split; reflexivity.
Defined.

(** X19: for a tags payload that lists "phi" and not "tinyllama", the
    client warns that its model is not found, while the handler selects
    "phi" for the request. *)
Theorem X19_client_checks_other_model (names : list str)
    (get : str -> outcome response) (resp : response)
    (w : world) (text : str) (s : state) (check_response : response) :
  In (lit "phi") names -> ~ In (lit "tinyllama") names ->
  get Frontend.ollama_tags_url = Ret resp ->
  json_body resp = Ret (tags_body names) ->
  strip text <> [] ->
  http_get w tags_url 3 = Ret check_response ->
  status_code check_response = 200%Z ->
  json_body check_response = Ret (tags_body names) ->
  Frontend.check_ollama get
  = [Frontend.st_success [Frontend.Text ([0x2705%N] ++ lit " Ollama is running")];
     Frontend.st_warning
       [Frontend.Text ([0x26A0; 0xFE0F]%N
                       ++ lit " tinyllama model not found. Run 'ollama pull tinyllama'")]]
  /\ MODEL_NAME (snd (analyze_sentiment w text s)) = lit "phi".
Proof.
  intros Hphi Htiny Hget Hbody Hne Hprobe Hst Hcheck. split.
  - unfold Frontend.check_ollama, Frontend.model_availability.
    rewrite Hget, Hbody. unfold tags_body.
    cbv beta iota delta [obind py_get dict_lookup py_iter].
    change (str_eqb (lit "models") (lit "models")) with true. cbv iota.
    now rewrite (any_named_none names Htiny).
  - rewrite (analyze_selection w text s Hne). unfold selection.
    rewrite Hprobe, Hst, Hcheck, available_names_tags.
    change (200 =? 200)%Z with true. cbv iota.
    assert (existsb (str_eq_json (lit "phi")) (map JStr names) = true) as Hl.
    { apply listed_existsb. unfold listed. now apply in_map. }
    unfold candidates. cbn [find]. now rewrite Hl.
Qed.

Lemma X19_client_checks_other_model_witness :
  Frontend.check_ollama (get_answer (Ret (ok_response (tags_body [lit "phi"]))))
  = [Frontend.st_success [Frontend.Text ([0x2705%N] ++ lit " Ollama is running")];
     Frontend.st_warning
       [Frontend.Text ([0x26A0; 0xFE0F]%N
                       ++ lit " tinyllama model not found. Run 'ollama pull tinyllama'")]]
  /\ MODEL_NAME
       (snd (analyze_sentiment
               {| http_get := fun _ _ => Ret (ok_response (tags_body [lit "phi"]));
                  http_post := fun _ _ _ => Raise refused;
                  popen := fun _ => Ret tt |}
               (lit "hello") {| MODEL_NAME := lit "llama2"; calls := [] |}))
     = lit "phi".
Proof.
  apply (X19_client_checks_other_model [lit "phi"] _ (ok_response (tags_body [lit "phi"]))
           _ _ _ (ok_response (tags_body [lit "phi"]))).
  - left. reflexivity.
  - intros [H | []]. vm_compute in H. discriminate H.
  - reflexivity.
  - reflexivity.
  - vm_compute. discriminate.
  - reflexivity.
  - reflexivity.
  - reflexivity.
Defined.

(** X20: for a tags payload whose first entry is named "tinyllama" and
    which holds, further on, an entry without a name, the client reports
    Ollama as running and its model as available, while the handler
    reports that Ollama is not running. *)
Theorem X20_nameless_entry (get : str -> outcome response) (resp : response)
    (w : world) (text : str) (s : state) (check_response : response)
    (body : dict) (hit bad : json) (rest : list json) (e : exn) :
  dict_lookup (lit "models") body = Some (JList (hit :: rest)) ->
  named hit (JStr (lit "tinyllama")) ->
  In bad rest -> py_getitem bad (lit "name") = Raise e ->
  get Frontend.ollama_tags_url = Ret resp ->
  json_body resp = Ret (JDict body) ->
  strip text <> [] ->
  http_get w tags_url 3 = Ret check_response ->
  status_code check_response = 200%Z ->
  json_body check_response = Ret (JDict body) ->
  Frontend.check_ollama get
  = [Frontend.st_success [Frontend.Text ([0x2705%N] ++ lit " Ollama is running")];
     Frontend.st_success [Frontend.Text ([0x2705%N] ++ lit " tinyllama model is available")]]
  /\ fst (analyze_sentiment w text s) = Ret (sentiment_dict not_running).
Proof.
  intros Hl Hh Hin Hbad Hget Hbody Hne Hprobe Hst Hcheck. split.
  - unfold Frontend.check_ollama, Frontend.model_availability.
    rewrite Hget, Hbody. cbv beta iota delta [obind py_get]. rewrite Hl.
    cbv beta iota delta [py_iter].
    pose proof (any_named_hit [] rest hit (Forall_nil _) Hh) as Ha.
    cbn [app] in Ha. now rewrite Ha.
  - rewrite analyze_run by assumption. rewrite probe_run. cbv zeta.
    rewrite Hprobe, Hst, Hcheck. change (200 =? 200)%Z with true. cbv iota.
    assert (exists e', available_names (JDict body) = Raise e') as (e' & ->).
    { unfold available_names. cbv beta iota delta [obind py_get]. rewrite Hl.
      cbv beta iota delta [py_iter].
      apply (comprehension_raises _ (hit :: rest) bad e); [now right | exact Hbad]. }
    reflexivity.
Qed.

Lemma X20_nameless_entry_witness :
  Frontend.check_ollama (get_answer (Ret (ok_response tags_then_nameless)))
  = [Frontend.st_success [Frontend.Text ([0x2705%N] ++ lit " Ollama is running")];
     Frontend.st_success [Frontend.Text ([0x2705%N] ++ lit " tinyllama model is available")]]
  /\ fst (analyze_sentiment
            {| http_get := fun _ _ => Ret (ok_response tags_then_nameless);
               http_post := fun _ _ _ => Raise refused;
               popen := fun _ => Ret tt |}
            (lit "hello") initial)
     = Ret (sentiment_dict not_running).
Proof.
  apply (X20_nameless_entry _ (ok_response tags_then_nameless) _ _ _
           (ok_response tags_then_nameless)
           [(lit "models", JList [JDict [(lit "name", JStr (lit "tinyllama"))]; nameless])]
           (JDict [(lit "name", JStr (lit "tinyllama"))]) nameless [nameless]
           (KeyError (lit "name"))).
  - reflexivity.
  - eexists. split; reflexivity.
  - left. reflexivity.
  - reflexivity.
  - reflexivity.
  - reflexivity.
  - vm_compute. discriminate.
  - reflexivity.
  - reflexivity.
  - reflexivity.
Defined.

(* ================================================================== *)
(** * Further facts: the client in front of the handler                *)
(* ================================================================== *)

(** The answer that reaches the client is a 200 holding the label, when
    the label can be encoded, and a 500 otherwise. *)
Lemma served_label (w : world) (s : state) (text label : str) :
  text <> [] ->
  fst (analyze_sentiment w text s) = Ret (sentiment_dict label) ->
  str_encodable label = true ->
  ok_with (Wire.served w s text) [(lit "sentiment", JStr label)].
Proof.
  intros Hne H He. unfold Wire.served, Wire.received.
  rewrite (handle_encodable w text label s Hne H He). split; reflexivity.
Qed.

Lemma served_failure (w : world) (s : state) (text label : str) :
  text <> [] ->
  fst (analyze_sentiment w text s) = Ret (sentiment_dict label) ->
  str_encodable label = false ->
  status_code (Wire.served w s text) = 500%Z.
Proof.
  intros Hne H He. unfold Wire.served, Wire.received.
  now rewrite (handle_unencodable w text label s Hne H He).
Qed.

(** X21: when the client's POST is answered by the handler, the box of
    the Analyze button is the rendering of the label the handler
    returned, provided the label can be encoded as UTF-8; when it cannot,
    the box is the error "Error: Received status code" with 500. *)
Theorem X21_button_renders_label (w : world) (s : state)
    (post : str -> dict -> Z -> outcome response) (text : str) :
  strip text <> [] -> answered post text (Wire.served w s text) ->
  exists label,
    fst (analyze_sentiment w text s) = Ret (sentiment_dict label)
    /\ (str_encodable label = true ->
        Ret (Frontend.analyze_button post text) = Frontend.show_sentiment (JStr label))
    /\ (str_encodable label = false ->
        Frontend.analyze_button post text
        = Frontend.st_error
            [Frontend.Text (lit "Error: Received status code ");
             Frontend.Field (JInt 500)]).
Proof.
  intros Hne Hp. pose proof (strip_nonempty text Hne) as Ht.
  destruct (analyze_returns w text s) as (label & Hl).
  exists label. split; [exact Hl | split]; intros He.
  - apply (button_shows post text (Wire.served w s text) [(lit "sentiment", JStr label)]);
      try assumption.
    + now apply served_label.
    + reflexivity.
  - pose proof (served_failure w s text label Ht Hl He) as Hst.
    rewrite (button_cases post text Hne). unfold answered in Hp. rewrite Hp.
    unfold Frontend.show_response. rewrite Hst. reflexivity.
Qed.

Lemma X21_button_renders_label_witness :
  Ret (Frontend.analyze_button (post_via world_tiny) (lit "awful"))
  = Frontend.show_sentiment (JStr (lit "Negative"))
  /\ Frontend.analyze_button (post_via world_surrogate) (lit "hello")
     = Frontend.st_error
         [Frontend.Text (lit "Error: Received status code "); Frontend.Field (JInt 500)].
Proof.
  split.
  - destruct (X21_button_renders_label world_tiny initial (post_via world_tiny) (lit "awful"))
      as (label & Hl & Hok & _).
    + vm_compute. discriminate.
    + reflexivity.
    + assert (E : label = lit "Negative").
      { vm_compute in Hl. injection Hl as Hl. rewrite <- Hl. reflexivity. }
      rewrite E in Hok. apply Hok. reflexivity.
  - destruct (X21_button_renders_label world_surrogate initial (post_via world_surrogate)
                (lit "hello")) as (label & Hl & _ & Hbad).
    + vm_compute. discriminate.
    + reflexivity.
    + assert (E : label = [0xD800%N]).
      { vm_compute in Hl. injection Hl as Hl. rewrite <- Hl. reflexivity. }
      rewrite E in Hbad. apply Hbad. reflexivity.
Defined.

(** X22: when the handler's probe raises, the client shows the
    diagnostic telling to start Ollama in an error box. *)
Theorem X22_server_down_is_error (w : world) (s : state)
    (post : str -> dict -> Z -> outcome response) (text : str) (e : exn) :
  strip text <> [] -> answered post text (Wire.served w s text) ->
  http_get w tags_url 3 = Raise e ->
  Frontend.analyze_button post text = Frontend.st_error [Frontend.Field (JStr not_running)].
Proof.
  intros Hne Hp Hget.
  assert (Hl : fst (analyze_sentiment w text s) = Ret (sentiment_dict not_running)).
  { rewrite analyze_run by assumption. rewrite probe_run. cbv zeta. now rewrite Hget. }
  pose proof (button_shows post text (Wire.served w s text)
                [(lit "sentiment", JStr not_running)] not_running Hne Hp
                (served_label w s text not_running (strip_nonempty text Hne) Hl eq_refl)
                eq_refl) as E.
  now injection E.
Qed.

Lemma X22_server_down_is_error_witness :
  Frontend.analyze_button (post_via world_down) (lit "hello")
  = Frontend.st_error [Frontend.Field (JStr not_running)].
Proof.
  apply (X22_server_down_is_error world_down initial (post_via world_down) (lit "hello")
           refused).
  - vm_compute. discriminate.
  - reflexivity.
  - reflexivity.
Defined.

(** X23: when the generation endpoint answers a dictionary whose
    "response" is not a string, the client shows "Unexpected error
    occurred" as a sentiment in a warning box, not in an error box. *)
Theorem X23_unexpected_is_warning (w : world) (s s1 : state)
    (post : str -> dict -> Z -> outcome response) (text : str)
    (response : response) (d : dict) (v : json) :
  strip text <> [] -> answered post text (Wire.served w s text) ->
  probe w s = (Ret tt, s1) ->
  http_post w generate_url (generate_payload (MODEL_NAME s1) (prompt_of text)) 15
  = Ret response ->
  raise_for_status response = Ret tt ->
  json_body response = Ret (JDict d) ->
  dict_lookup (lit "response") d = Some v -> not_text v ->
  Frontend.analyze_button post text
  = Frontend.st_warning
      [Frontend.Text (lit "Sentiment: ");
       Frontend.Field (JStr (lit "Unexpected error occurred"))].
Proof.
  intros Hne Hp Hprobe Hpost Hok Hbody Hlook Hv.
  assert (Hl : fst (analyze_sentiment w text s)
               = Ret (sentiment_dict (lit "Unexpected error occurred"))).
  { rewrite (analyze_after_probe w text s s1 Hne Hprobe).
    rewrite generate_cases. cbv zeta.
    rewrite (attempt_decoded _ _ _ _ _ Hpost Hok Hbody).
    unfold extract_sentiment. cbv beta iota delta [obind py_in py_getitem].
    rewrite Hlook.
    destruct v as [| | | |t| |];
      try (cbv beta iota delta [obind py_strip]; now rewrite clause_unexpected).
    now contradiction (Hv t). }
  pose proof (button_shows post text (Wire.served w s text) _ _ Hne Hp
                (served_label w s text _ (strip_nonempty text Hne) Hl eq_refl)
                eq_refl) as E.
  now injection E.
Qed.

Lemma X23_unexpected_is_warning_witness :
  Frontend.analyze_button
    (post_via (world_post (Ret (ok_response (JDict [(lit "response", JInt 7)])))))
    (lit "hello")
  = Frontend.st_warning
      [Frontend.Text (lit "Sentiment: ");
       Frontend.Field (JStr (lit "Unexpected error occurred"))].
Proof.
  apply (X23_unexpected_is_warning
           (world_post (Ret (ok_response (JDict [(lit "response", JInt 7)]))))
           initial (record the_probe initial)
           (post_via (world_post (Ret (ok_response (JDict [(lit "response", JInt 7)])))))
           (lit "hello")
           (ok_response (JDict [(lit "response", JInt 7)]))
           [(lit "response", JInt 7)] (JInt 7)).
  - vm_compute. discriminate.
  - reflexivity.
  - reflexivity.
  - reflexivity.
  - reflexivity.
  - reflexivity.
  - reflexivity.
  - intros t. discriminate.
Defined.

(** ** Blank input, and a list that cannot be checked *)

(** X24: with no example chosen and a text area holding whitespace
    only, the Analyze button shows the validation error, whatever the
    backend would answer. *)
Theorem X24_blank_text_area (post : str -> dict -> Z -> outcome response) (text_area : str) :
  blank text_area ->
  Frontend.analyze_button post (Frontend.text_input_of [] text_area)
  = Frontend.st_error [Frontend.Text (lit "Please enter some text to analyze")].
Proof.
  intros Hb. unfold Frontend.text_input_of, Frontend.analyze_button.
  now rewrite (strip_blank text_area Hb).
Qed.

Lemma X24_blank_text_area_witness :
  Frontend.analyze_button (post_label (lit "Positive"))
    (Frontend.text_input_of [] (lit "  "))
  = Frontend.st_error [Frontend.Text (lit "Please enter some text to analyze")].
Proof.
  apply (X24_blank_text_area (post_label (lit "Positive")) (lit "  ")).
  repeat constructor.
Defined.

Lemma any_named_raises (before rest : list json) (bad : json) (e : exn) :
  Forall (fun m => exists v, named m v /\ v <> JStr Frontend.MODEL_NAME) before ->
  py_getitem bad (lit "name") = Raise e ->
  Frontend.any_named (before ++ bad :: rest) = Raise e.
Proof.
  intros Hb Hbad.
  induction Hb as [|m before (v & Hm & Hv) _ IH]; cbn [app Frontend.any_named].
  - now rewrite Hbad.
  - rewrite (named_getitem _ _ Hm). cbn [obind].
    destruct (str_eq_json Frontend.MODEL_NAME v) eqn:E; [|exact IH].
    apply str_eq_json_true in E. contradiction.
Qed.

(** X25: when an entry of "models" that is not a dictionary with a name
    comes before any entry named "tinyllama", "Check Ollama" reports
    Ollama as running and warns that the model could not be checked,
    whatever the entries after it list. *)
Theorem X25_ollama_unchecked (get : str -> outcome response) (resp : response)
    (body : dict) (before rest : list json) (bad : json) (e : exn) :
  get Frontend.ollama_tags_url = Ret resp ->
  json_body resp = Ret (JDict body) ->
  dict_lookup (lit "models") body = Some (JList (before ++ bad :: rest)) ->
  Forall (fun m => exists v, named m v /\ v <> JStr (lit "tinyllama")) before ->
  py_getitem bad (lit "name") = Raise e ->
  Frontend.check_ollama get
  = [Frontend.st_success [Frontend.Text ([0x2705%N] ++ lit " Ollama is running")];
     Frontend.st_warning
       [Frontend.Text ([0x26A0; 0xFE0F]%N ++ lit " Could not check for model availability")]].
Proof.
  intros Hget Hbody Hl Hb Hbad. unfold Frontend.check_ollama, Frontend.model_availability.
  rewrite Hget, Hbody. cbv beta iota delta [obind py_get]. rewrite Hl.
  cbv beta iota delta [py_iter]. now rewrite (any_named_raises before rest bad e Hb Hbad).
Qed.

Lemma X25_ollama_unchecked_witness :
  Frontend.check_ollama
    (get_answer
       (Ret (ok_response
               (JDict [(lit "models",
                        JList [nameless; JDict [(lit "name", JStr (lit "tinyllama"))]])]))))
  = [Frontend.st_success [Frontend.Text ([0x2705%N] ++ lit " Ollama is running")];
     Frontend.st_warning
       [Frontend.Text ([0x26A0; 0xFE0F]%N ++ lit " Could not check for model availability")]].
Proof.
  apply (X25_ollama_unchecked _
           (ok_response
              (JDict [(lit "models",
                       JList [nameless; JDict [(lit "name", JStr (lit "tinyllama"))]])]))
           [(lit "models", JList [nameless; JDict [(lit "name", JStr (lit "tinyllama"))]])]
           [] [JDict [(lit "name", JStr (lit "tinyllama"))]] nameless
           (KeyError (lit "name"))).
  - reflexivity.
  - reflexivity.
  - reflexivity.
  - constructor.
  - reflexivity.
Defined.
